(** * MetroRetail raw-layer ingestion: a shallow embedding

    The development follows [pipelines/config.py], [pipelines/db_utils.py]
    and [pipelines/ingest_csv.py].  Python code that mutates the process
    state (the log, the clock, the database session) is written in a state
    and exception monad over a record [World]; every definition keeps the
    name of the Python function it embeds. *)

From Stdlib Require Import ZArith Lia Ascii String List.
From stdpp Require Import gmap strings list fin_maps.

Open Scope string_scope.
Open Scope list_scope.

(** ** Python outcomes: a call returns a value or raises *)

Inductive exn := Exn (cls : string) (msg : string).

Definition exn_class (e : exn) : string := let 'Exn c _ := e in c.

Inductive Outcome (A : Type) :=
| Returned (a : A)
| Raised (e : exn).
Arguments Returned {A} a.
Arguments Raised {A} e.

(** What a caller of a function gets back as its value: nothing when the
    call raised. *)
Definition reported {A} (o : Outcome A) : option A :=
  match o with
  | Returned a => Some a
  | Raised _ => None
  end.

(** ** [datetime] and [strftime] *)

Record datetime := {
  year : nat; month : nat; day : nat;
  hour : nat; minute : nat; second : nat;
  microsecond : nat
}.

Definition digit (d : nat) : ascii := ascii_of_nat (48 + d).

(** Decimal digits of [n], most significant first ([str(n)] for n >= 0). *)
Fixpoint dec_aux (fuel n : nat) (acc : string) : string :=
  match fuel with
  | O => acc
  | S fuel' =>
      let acc' := String (digit (n mod 10)) acc in
      if (n / 10 =? 0)%nat then acc' else dec_aux fuel' (n / 10) acc'
  end.

Definition dec (n : nat) : string := dec_aux (S n) n "".

Fixpoint zeros (k : nat) : string :=
  match k with
  | O => ""
  | S k' => String "0" (zeros k')
  end.

(** [%0wd]: pads on the left with zeros up to width [w], never truncates. *)
Definition zfill (w : nat) (s : string) : string :=
  zeros (w - String.length s) +:+ s.

(** The directives that the format of [generate_batch_id] uses. *)
Definition directive (c : ascii) (t : datetime) : string :=
  if Ascii.eqb c "Y" then zfill 4 (dec (year t))
  else if Ascii.eqb c "m" then zfill 2 (dec (month t))
  else if Ascii.eqb c "d" then zfill 2 (dec (day t))
  else if Ascii.eqb c "H" then zfill 2 (dec (hour t))
  else if Ascii.eqb c "M" then zfill 2 (dec (minute t))
  else if Ascii.eqb c "S" then zfill 2 (dec (second t))
  else String "%" (String c "").

Fixpoint strftime (fmt : string) (t : datetime) : string :=
  match fmt with
  | "" => ""
  | String c rest =>
      if Ascii.eqb c "%" then
        match rest with
        | "" => "%"
        | String d rest' => directive d t +:+ strftime rest' t
        end
      else String c (strftime rest t)
  end.

(** [str.lower] on ASCII text: the letters A to Z become a to z and every
    other character stays.  A string is held as its bytes, so this is
    [str.lower] for strings of ASCII characters only (the source systems of
    the registry are such strings); the properties below that speak of
    lowercasing take such strings. *)
Definition lower_char (c : ascii) : ascii :=
  let n := nat_of_ascii c in
  if ((65 <=? n) && (n <=? 90))%nat then ascii_of_nat (n + 32) else c.

Fixpoint lower (s : string) : string :=
  match s with
  | "" => ""
  | String c rest => String (lower_char c) (lower rest)
  end.

(** ** Tabular data *)

(** A cell of a [DataFrame].  A float is kept by its [repr] (NaN is
    [CFloat "nan"]); Python's [None] is [CNone]. *)
Inductive Cell :=
| CNone
| CFloat (repr : string)
| CInt (n : Z)
| CBool (b : bool)
| CStr (s : string).

Record DataFrame := {
  columns : list string;
  values : list (list Cell)
}.

(** [len(df)] *)
Definition len (df : DataFrame) : nat := length (values df).

(** [df.empty]: some axis has length 0. *)
Definition is_empty (df : DataFrame) : bool :=
  match columns df, values df with
  | [], _ => true
  | _, [] => true
  | _, _ => false
  end.

Fixpoint index_of (col : string) (cols : list string) : option nat :=
  match cols with
  | [] => None
  | c :: rest => if String.eqb c col then Some O else S <$> index_of col rest
  end.

(** [df[col] = v] with a scalar [v]: overwrites the column when it exists,
    appends it otherwise. *)
Definition setitem (df : DataFrame) (col : string) (v : Cell) : DataFrame :=
  match index_of col (columns df) with
  | Some i => {| columns := columns df;
                 values := map (fun row => <[i := v]> row) (values df) |}
  | None => {| columns := columns df ++ [col];
               values := map (fun row => row ++ [v]) (values df) |}
  end.

(** [df.rename(columns={old: new})] *)
Definition rename (df : DataFrame) (old new : string) : DataFrame :=
  {| columns := map (fun c => if String.eqb c old then new else c) (columns df);
     values := values df |}.

(** [str(v)] of a cell, as [df.astype(str)] applies it in pandas 1.4 to
    2.x, where the result is a column of Python strings. *)
Definition py_str (v : Cell) : string :=
  match v with
  | CNone => "None"
  | CFloat r => r
  | CInt n =>
      match n with
      | Zneg p => "-" +:+ dec (Pos.to_nat p)
      | _ => dec (Z.to_nat n)
      end
  | CBool true => "True"
  | CBool false => "False"
  | CStr s => s
  end.

Definition astype_str (rows : list (list Cell)) : list (list (option string)) :=
  map (map (fun v => Some (py_str v))) rows.

(** [frame.replace(old, None)]: a cell equal to the string [old] becomes
    [None]; cells that are already [None] are not strings and stay.  (This
    is the meaning of an explicit [None] value in [DataFrame.replace] in
    pandas 1.4 to 2.x.) *)
Definition replace (old : string) (rows : list (list (option string)))
  : list (list (option string)) :=
  map (map (fun c =>
              match c with
              | Some s => if String.eqb s old then None else Some s
              | None => None
              end)) rows.

(** The outcome of [pd.read_csv] on a file that is present. *)
Inductive SourceFile :=
| Unparsable (e : exn)
| Parsed (df : DataFrame).

(** ** The database *)

Record ManifestRecord := {
  Batch_ID : string;
  Source_System : string;
  Entity_Name : string;
  Source_File : string;
  Row_Count : Z;
  Load_Start_TS : datetime;
  Load_End_TS : option datetime;
  Load_Status : string;
  Error_Message : option string
}.

(** [Ingestion_Manifest] holds the records of the ledger table
    [Raw.Ingestion_Manifest], which the statements of [start_manifest] and
    [complete_manifest] write.  [tables] holds, under the name of a table,
    the rows that were inserted into it as text.  A row that a bulk insert
    puts into the ledger table under its own name is kept there as well, as
    text: it is not read as a record, since the types and defaults of the
    ledger's columns are in DDL that is not among the sources. *)
Record Database := {
  Ingestion_Manifest : list ManifestRecord;
  tables : gmap string (list (list (option string)))
}.

(** The name of the ledger table in the SQL of [db_utils.py]. *)
Definition ledger_table : string := "Raw.Ingestion_Manifest".

(** The SQL texts of [db_utils.py], one constructor per statement, with
    the parameters bound to its [?] marks. *)
Inductive Statement :=
| InsertManifest (batch_id source_system entity_name source_file : string)
| UpdateManifest (row_count : Z) (status : string)
                 (error_message : option string) (batch_id : string)
| TruncateTable (table_name : string)
| InsertInto (table_name : string) (cols : list string)
             (row : list (option string)).

(** What reaches the driver: calls on the cursor and on the connection. *)
Inductive DbCall :=
| Execute (s : Statement)
| ExecuteMany (table_name : string) (cols : list string)
              (batch : list (list (option string)))
| Commit
| Rollback.

(** A [DatabaseManager] with the server at the other end of its connection
    string: [server] is the committed state, [conn] the open connection
    ([None] before [connect()]) with the state its transaction sees, and
    [calls] the calls the driver received, oldest first. *)
Record DatabaseManager := {
  server : Database;
  conn : option Database;
  calls : list DbCall
}.

(** ** The log *)

Inductive Level := INFO | WARNING | ERROR.

Inductive Message :=
| Rule70                                  (* "=" * 70 *)
| Rule70_nl                               (* "\n" + "=" * 70 *)
| Dash70                                  (* "-" * 70 *)
| ManifestCreated (batch_id : string)
| ManifestCreateFailed (e : exn)
| ManifestUpdated (batch_id status : string)
| ManifestUpdateFailed (e : exn)
| TableTruncated (table_name : string)
| TruncateFailed (e : exn)
| EmptyDataFrame
| InsertedSoFar (total_inserted : nat)
| BulkInsertCompleted (total_inserted : nat) (table_name : string)
| BulkInsertFailed (e : exn)
| StartingIngestion (file_name : string)
| FileNotFound (file_path : string)
| NoTableMapping (file_name : string)
| BatchIdIs (batch_id : string)
| TargetTable (target_table : string)
| ReadingCSV (file_path : string)
| RowsRead (n : nat)
| ColumnsAre (cols : list string)
| SuccessfullyProcessed (file_name : string)
| ReadyForInsertion (n : nat)
| FailedToProcess (file_name : string) (e : exn)
| BulkIngestionHeader
| IngestionSummary
| SummaryLine (success : bool) (file_name : string)
| TotalFiles (n : nat)
| Successful (n : nat)
| Failed (n : Z).

(** ** The process state *)

(** [sample_dir] is the content of [SAMPLE_DIR], a file given by what
    [pd.read_csv] makes of it; [clock] is the sequence of readings of the
    clock and [ticks] the number of readings taken so far; [faults] is the
    statements that the server rejects, with the error it answers. *)
Record World := {
  sample_dir : gmap string SourceFile;
  clock : nat -> datetime;
  ticks : nat;
  faults : Statement -> option exn;
  db : DatabaseManager;
  log : list (Level * Message)
}.

Definition set_ticks (n : nat) (w : World) : World :=
  {| sample_dir := sample_dir w; clock := clock w; ticks := n;
     faults := faults w; db := db w; log := log w |}.

Definition set_db (d : DatabaseManager) (w : World) : World :=
  {| sample_dir := sample_dir w; clock := clock w; ticks := ticks w;
     faults := faults w; db := d; log := log w |}.

Definition set_log (l : list (Level * Message)) (w : World) : World :=
  {| sample_dir := sample_dir w; clock := clock w; ticks := ticks w;
     faults := faults w; db := db w; log := l |}.

(** ** The monad of state and exceptions *)

Definition M (A : Type) : Type := World -> Outcome A * World.

#[global] Instance M_ret : MRet M := fun A a w => (Returned a, w).

#[global] Instance M_bind : MBind M := fun A B f m w =>
  match m w with
  | (Returned a, w') => f a w'
  | (Raised e, w') => (Raised e, w')
  end.

Definition raise {A} (e : exn) : M A := fun w => (Raised e, w).

(** [try: m except Exception as e: h e] *)
Definition try_except {A} (m : M A) (h : exn -> M A) : M A := fun w =>
  match m w with
  | (Returned a, w') => (Returned a, w')
  | (Raised e, w') => h e w'
  end.

(** [try: m finally: fin] *)
Definition try_finally {A} (m : M A) (fin : M unit) : M A := fun w =>
  let '(r, w1) := m w in
  match fin w1 with
  | (Returned _, w2) => (r, w2)
  | (Raised e, w2) => (Raised e, w2)
  end.

Definition lift {A} (o : Outcome A) : M A := fun w => (o, w).

Definition logger (lvl : Level) (m : Message) : M unit := fun w =>
  (Returned tt, set_log (log w ++ [(lvl, m)]) w).

(** [datetime.now()], and [GETDATE()] at the server: one reading of the
    clock. *)
Definition now : M datetime := fun w =>
  (Returned (clock w (ticks w)), set_ticks (S (ticks w)) w).

(** ** [db_utils.py]: the driver *)

(** Calling a method on [self.cursor] or [self.conn] while it is [None]. *)
Definition none_has_no (attr : string) : exn :=
  Exn "AttributeError"
      ("'NoneType' object has no attribute '" +:+ attr +:+ "'").

Definition get_conn (attr : string) : M Database := fun w =>
  match conn (db w) with
  | None => (Raised (none_has_no attr), w)
  | Some v => (Returned v, w)
  end.

Definition modify_db (f : DatabaseManager -> DatabaseManager) : M unit :=
  fun w => (Returned tt, set_db (f (db w)) w).

Definition put_conn (v : Database) : M unit :=
  modify_db (fun d => {| server := server d; conn := Some v; calls := calls d |}).

Definition driver_call (c : DbCall) : M unit :=
  modify_db (fun d => {| server := server d; conn := conn d;
                         calls := calls d ++ [c] |}).

Definition get_faults : M (Statement -> option exn) := fun w =>
  (Returned (faults w), w).

(** Modelled from the spec: the key on [Batch_ID] of
    [Raw.Ingestion_Manifest].  The table is created by SQL scripts that are
    not among the sources; the spec gives the column as unique and has the
    store reject a duplicate batch id. *)
Definition duplicate_batch_id (batch_id : string) (v : Database) : bool :=
  existsb (fun r => String.eqb (Batch_ID r) batch_id) (Ingestion_Manifest v).

Definition started (batch_id source_system entity_name source_file : string)
    (getdate : datetime) : ManifestRecord :=
  {| Batch_ID := batch_id; Source_System := source_system;
     Entity_Name := entity_name; Source_File := source_file;
     Row_Count := 0; Load_Start_TS := getdate; Load_End_TS := None;
     Load_Status := "STARTED"; Error_Message := None |}.

(** The [SET] clause of the [UPDATE] of [complete_manifest]. *)
Definition set_completion (row_count : Z) (getdate : datetime)
    (status : string) (error_message : option string) (r : ManifestRecord)
  : ManifestRecord :=
  {| Batch_ID := Batch_ID r; Source_System := Source_System r;
     Entity_Name := Entity_Name r; Source_File := Source_File r;
     Row_Count := row_count; Load_Start_TS := Load_Start_TS r;
     Load_End_TS := Some getdate; Load_Status := status;
     Error_Message := error_message |}.

(** [UPDATE ... WHERE Batch_ID = ?] *)
Definition update_where (batch_id : string) (f : ManifestRecord -> ManifestRecord)
    (l : list ManifestRecord) : list ManifestRecord :=
  map (fun r => if String.eqb (Batch_ID r) batch_id then f r else r) l.

(** One more row at the end of a table. *)
Definition append_row (table_name : string) (row : list (option string))
    (v : Database) : Database :=
  {| Ingestion_Manifest := Ingestion_Manifest v;
     tables := <[table_name := default [] (tables v !! table_name) ++ [row]]>
                 (tables v) |}.

Definition insert_row (flt : Statement -> option exn) (table_name : string)
    (cols : list string) (row : list (option string)) (v : Database)
  : Outcome Database :=
  match flt (InsertInto table_name cols row) with
  | Some e => Raised e
  | None => Returned (append_row table_name row v)
  end.

(** One statement, run inside the transaction of the connection. *)
Definition run_statement (flt : Statement -> option exn) (getdate : datetime)
    (s : Statement) (v : Database) : Outcome Database :=
  match s with
  | InsertInto table_name cols row => insert_row flt table_name cols row v
  | _ =>
    match flt s with
    | Some e => Raised e
    | None =>
      match s with
      | InsertManifest batch_id source_system entity_name source_file =>
          if duplicate_batch_id batch_id v
          then Raised (Exn "IntegrityError" "duplicate key: Batch_ID")
          else Returned
                 {| Ingestion_Manifest :=
                      Ingestion_Manifest v ++
                      [started batch_id source_system entity_name source_file
                               getdate];
                    tables := tables v |}
      | UpdateManifest row_count status error_message batch_id =>
          Returned
            {| Ingestion_Manifest :=
                 update_where batch_id
                   (set_completion row_count getdate status error_message)
                   (Ingestion_Manifest v);
               tables := tables v |}
      | TruncateTable table_name =>
          Returned {| Ingestion_Manifest :=
                        if String.eqb table_name ledger_table then []
                        else Ingestion_Manifest v;
                      tables := <[table_name := []]> (tables v) |}
      | InsertInto _ _ _ => Returned v
      end
    end
  end.

(** The rows of one [executemany], one after the other; the rows before a
    rejected one stay in the transaction. *)
Fixpoint insert_rows (flt : Statement -> option exn) (table_name : string)
    (cols : list string) (batch : list (list (option string))) (v : Database)
  : Database * option exn :=
  match batch with
  | [] => (v, None)
  | row :: rest =>
      match insert_row flt table_name cols row v with
      | Raised e => (v, Some e)
      | Returned v' => insert_rows flt table_name cols rest v'
      end
  end.

(** [self.cursor.execute(sql, params)] *)
Definition cursor_execute (s : Statement) : M unit :=
  v ← get_conn "execute";
  driver_call (Execute s);;
  getdate ← now;
  flt ← get_faults;
  v' ← lift (run_statement flt getdate s v);
  put_conn v'.

(** [self.cursor.executemany(sql, batch)] *)
Definition cursor_executemany (table_name : string) (cols : list string)
    (batch : list (list (option string))) : M unit :=
  v ← get_conn "executemany";
  driver_call (ExecuteMany table_name cols batch);;
  flt ← get_faults;
  let '(v', r) := insert_rows flt table_name cols batch v in
  put_conn v';;
  match r with
  | Some e => raise e
  | None => mret tt
  end.

(** [self.conn.commit()] *)
Definition conn_commit : M unit :=
  v ← get_conn "commit";
  driver_call Commit;;
  modify_db (fun d => {| server := v; conn := Some v; calls := calls d |}).

(** [self.conn.rollback()] *)
Definition conn_rollback : M unit :=
  _ ← get_conn "rollback";
  driver_call Rollback;;
  modify_db (fun d => {| server := server d; conn := Some (server d);
                         calls := calls d |}).

(** ** [db_utils.py]: [DatabaseManager] *)

Definition start_manifest (batch_id source_system entity_name source_file : string)
  : M bool :=
  try_except
    (cursor_execute
       (InsertManifest batch_id source_system entity_name source_file);;
     conn_commit;;
     logger INFO (ManifestCreated batch_id);;
     mret true)
    (fun e => logger ERROR (ManifestCreateFailed e);; mret false).

Definition complete_manifest (batch_id : string) (row_count : Z)
    (status : string) (error_message : option string) : M bool :=
  try_except
    (cursor_execute (UpdateManifest row_count status error_message batch_id);;
     conn_commit;;
     logger INFO (ManifestUpdated batch_id status);;
     mret true)
    (fun e => logger ERROR (ManifestUpdateFailed e);; mret false).

Definition truncate_table (table_name : string) : M bool :=
  try_except
    (cursor_execute (TruncateTable table_name);;
     conn_commit;;
     logger INFO (TableTruncated table_name);;
     mret true)
    (fun e => logger ERROR (TruncateFailed e);; mret false).

(** The indices [i, i + step, ...] below [stop], by repeated addition. *)
Fixpoint range_up (fuel i stop step : nat) : list nat :=
  match fuel with
  | O => []
  | S fuel' =>
      if (i <? stop)%nat then i :: range_up fuel' (i + step) stop step else []
  end.

(** [range(0, stop, step)] for [stop = len(data)]: a zero step raises, a
    negative step gives no index. *)
Definition range (stop : nat) (step : Z) : Outcome (list nat) :=
  match step with
  | Z0 => Raised (Exn "ValueError" "range() arg 3 must not be zero")
  | Zneg _ => Returned []
  | Zpos p => Returned (range_up stop 0 stop (Pos.to_nat p))
  end.

(** [l[i:j]] for [0 <= i <= j] *)
Definition slice {A} (l : list A) (i j : nat) : list A :=
  take (j - i) (drop i l).

(** The body of [for i in range(0, len(data), batch_size)]. *)
Fixpoint insert_batches (table_name : string) (cols : list string)
    (data : list (list (option string))) (batch_size : nat)
    (indices : list nat) (total_inserted : nat) : M nat :=
  match indices with
  | [] => mret total_inserted
  | i :: rest =>
      let batch := slice data i (i + batch_size) in
      cursor_executemany table_name cols batch;;
      conn_commit;;
      let total_inserted := (total_inserted + length batch)%nat in
      (if (Z.of_nat (i + batch_size) mod 10000 =? 0)%Z
       then logger INFO (InsertedSoFar total_inserted)
       else mret tt);;
      insert_batches table_name cols data batch_size rest total_inserted
  end.

(** The rows as the cursor gets them: all text, ["nan"] and ["None"]
    replaced by [None]. *)
Definition sql_rows (df : DataFrame) : list (list (option string)) :=
  let df_str := astype_str (values df) in
  let df_str := replace "nan" df_str in
  let df_str := replace "None" df_str in
  df_str.

Definition bulk_insert_dataframe (df : DataFrame) (table_name : string)
    (batch_size : Z) : M nat :=
  if is_empty df then
    logger WARNING EmptyDataFrame;;
    mret O
  else
    try_except
      (let cols := columns df in
       let data := sql_rows df in
       indices ← lift (range (length data) batch_size);
       total_inserted ←
         insert_batches table_name cols data (Z.to_nat batch_size) indices 0;
       logger INFO (BulkInsertCompleted total_inserted table_name);;
       mret total_inserted)
      (fun e =>
         logger ERROR (BulkInsertFailed e);;
         conn_rollback;;
         raise e).

Definition generate_batch_id (source entity : string) : M string :=
  t ← now;
  let timestamp := strftime "%Y%m%d_%H%M%S" t in
  mret (source +:+ "_" +:+ entity +:+ "_" +:+ timestamp).

(** ** [config.py] *)

Record Mapping := {
  table : string;
  source : string;
  entity : string
}.

(** A [dict] with string keys, in insertion order. *)
Fixpoint dict_get {V} (d : list (string * V)) (k : string) : option V :=
  match d with
  | [] => None
  | (k', v) :: rest => if String.eqb k' k then Some v else dict_get rest k
  end.

Fixpoint dict_set {V} (d : list (string * V)) (k : string) (v : V)
  : list (string * V) :=
  match d with
  | [] => [(k, v)]
  | (k', v') :: rest =>
      if String.eqb k' k then (k', v) :: rest else (k', v') :: dict_set rest k v
  end.

Definition keys {V} (d : list (string * V)) : list string := map fst d.

Definition FILE_TABLE_MAP : list (string * Mapping) := [
  ("pos_transactions_header.csv",
   {| table := "Raw.pos_transactions_header"; source := "POS";
      entity := "transactions_header" |});
  ("pos_transactions_lines.csv",
   {| table := "Raw.pos_transactions_lines"; source := "POS";
      entity := "transactions_lines" |});
  ("erp_products.csv",
   {| table := "Raw.erp_products"; source := "ERP"; entity := "products" |});
  ("erp_stores.csv",
   {| table := "Raw.erp_stores"; source := "ERP"; entity := "stores" |});
  ("erp_inventory.csv",
   {| table := "Raw.erp_inventory"; source := "ERP"; entity := "inventory" |});
  ("crm_customers.csv",
   {| table := "Raw.crm_customers"; source := "CRM"; entity := "customers" |});
  ("mkt_promotions.csv",
   {| table := "Raw.mkt_promotions"; source := "MKT"; entity := "promotions" |});
  ("api_weather.csv",
   {| table := "Raw.api_weather"; source := "API"; entity := "weather" |})
].

(** ** [ingest_csv.py] *)

(** [file_path.exists()] for [file_path = SAMPLE_DIR / file_name] *)
Definition path_exists (file_name : string) : M bool := fun w =>
  (Returned (match sample_dir w !! file_name with
             | Some _ => true
             | None => false
             end), w).

(** [pd.read_csv(file_path, low_memory=False)] *)
Definition read_csv (file_name : string) : M DataFrame := fun w =>
  match sample_dir w !! file_name with
  | None => (Raised (Exn "FileNotFoundError" file_name), w)
  | Some (Unparsable e) => (Raised e, w)
  | Some (Parsed df) => (Returned df, w)
  end.

(** The data frame of [ingest_csv_file] after the metadata columns and the
    rename for the weather file. *)
Definition stage (file_name batch_id : string) (df : DataFrame) : DataFrame :=
  let df := setitem df "Batch_ID" (CStr batch_id) in
  let df := setitem df "Source_File" (CStr file_name) in
  if String.eqb file_name "api_weather.csv"
     && existsb (String.eqb "Store_ID") (columns df)
  then rename df "Store_ID" "Retail_Location_ID"
  else df.

(** The [try] block ends in [return True] and its first [except] clause in
    [return False]: the statements after that [return] are dead, and the
    second [except] clause, for the same [Exception], is never entered.
    The [finally] clause runs on every way out of the [try]. *)
Definition ingest_csv_file (file_name : string) (truncate : bool) : M bool :=
  logger INFO Rule70;;
  logger INFO (StartingIngestion file_name);;
  logger INFO Rule70;;
  let file_path := file_name in
  found ← path_exists file_path;
  if negb found then
    logger ERROR (FileNotFound file_path);;
    mret false
  else
    match dict_get FILE_TABLE_MAP file_name with
    | None =>
        logger ERROR (NoTableMapping file_name);;
        mret false
    | Some mapping =>
        let target_table := table mapping in
        let source_system := source mapping in
        let entity_name := entity mapping in
        batch_id ← generate_batch_id (lower source_system) entity_name;
        logger INFO (BatchIdIs batch_id);;
        logger INFO (TargetTable target_table);;
        try_finally
          (try_except
             (logger INFO (ReadingCSV file_path);;
              df ← read_csv file_path;
              logger INFO (RowsRead (len df));;
              logger INFO (ColumnsAre (columns df));;
              let df := stage file_name batch_id df in
              logger INFO (SuccessfullyProcessed file_name);;
              logger INFO (ReadyForInsertion (len df));;
              mret true)
             (fun e =>
                logger ERROR (FailedToProcess file_name e);;
                mret false))
          (logger INFO Rule70)
    end.

(** [for file_name in FILE_TABLE_MAP.keys()] *)
Fixpoint ingest_each (file_names : list string) (truncate : bool)
    (results : list (string * bool)) : M (list (string * bool)) :=
  match file_names with
  | [] => mret results
  | file_name :: rest =>
      success ← ingest_csv_file file_name truncate;
      ingest_each rest truncate (dict_set results file_name success)
  end.

(** [for file_name, success in results.items()] *)
Fixpoint log_summary (items : list (string * bool)) : M unit :=
  match items with
  | [] => mret tt
  | (file_name, success) :: rest =>
      logger INFO (SummaryLine success file_name);;
      log_summary rest
  end.

Definition ingest_all_csv_files (truncate : bool) : M (list (string * bool)) :=
  logger INFO Rule70_nl;;
  logger INFO BulkIngestionHeader;;
  logger INFO Rule70;;
  results ← ingest_each (keys FILE_TABLE_MAP) truncate [];
  logger INFO Rule70_nl;;
  logger INFO IngestionSummary;;
  logger INFO Rule70;;
  let successful := length (filter (fun v => v = true) (map snd results)) in
  let failed := (Z.of_nat (length results) - Z.of_nat successful)%Z in
  log_summary results;;
  logger INFO Dash70;;
  logger INFO (TotalFiles (length results));;
  logger INFO (Successful successful);;
  logger INFO (Failed failed);;
  logger INFO Rule70;;
  mret results.

(** * Vocabulary of the properties *)

(** The values that a [datetime] can hold. *)
Definition valid_datetime (t : datetime) : Prop :=
  (1 <= year t < 100 * 100 /\ 1 <= month t <= 12 /\ 1 <= day t <= 31 /\
   hour t < 24 /\ minute t < 60 /\ second t < 60 /\
   microsecond t < 1000 * 1000)%nat.

(** Two readings of the clock within one second. *)
Definition same_second (t1 t2 : datetime) : Prop :=
  year t1 = year t2 /\ month t1 = month t2 /\ day t1 = day t2 /\
  hour t1 = hour t2 /\ minute t1 = minute t2 /\ second t1 = second t2.

(** A number written with exactly [k] decimal digits: [YYYY] is
    [fixed_width 4], [MM], [DD], [HH], [MM] and [SS] are [fixed_width 2]. *)
Fixpoint fixed_width (k n : nat) : string :=
  match k with
  | O => ""
  | S k' => fixed_width k' (n / 10) +:+ String (digit (n mod 10)) ""
  end.

Definition YYYYMMDD (t : datetime) : string :=
  fixed_width 4 (year t) +:+ fixed_width 2 (month t) +:+ fixed_width 2 (day t).

Definition HHMMSS (t : datetime) : string :=
  fixed_width 2 (hour t) +:+ fixed_width 2 (minute t)
  +:+ fixed_width 2 (second t).

(** What [ingest_csv_file] answers, read off the sample directory. *)
Definition ingest_outcome (dir : gmap string SourceFile) (file_name : string)
  : bool :=
  match dir !! file_name, dict_get FILE_TABLE_MAP file_name with
  | Some (Parsed _), Some _ => true
  | _, _ => false
  end.

(** Lowercasing said with the two alphabets side by side: a capital
    becomes the small letter at its place, any other character stays. *)
Definition capitals : string := "ABCDEFGHIJKLMNOPQRSTUVWXYZ".
Definition smalls : string := "abcdefghijklmnopqrstuvwxyz".

Fixpoint small_of (upper lower_ : string) (c : ascii) : ascii :=
  match upper, lower_ with
  | String u upper', String l lower' =>
      if Ascii.eqb c u then l else small_of upper' lower' c
  | _, _ => c
  end.

Fixpoint lowercase (s : string) : string :=
  match s with
  | "" => ""
  | String c rest => String (small_of capitals smalls c) (lowercase rest)
  end.

(** A string of ASCII characters. *)
Definition ascii_only (s : string) : Prop :=
  forallb (fun c => (nat_of_ascii c <? 128)%nat) (list_ascii_of_string s)
  = true.

(** Reading a decimal numeral: the value of a digit, and of a string of
    digits read from the left, [acc] being the value read so far. *)
Definition digit_value (c : ascii) : option nat :=
  let n := nat_of_ascii c in
  if ((48 <=? n) && (n <=? 57))%nat then Some (n - 48)%nat else None.

Fixpoint number_of_digits (s : string) (acc : nat) : option nat :=
  match s with
  | "" => Some acc
  | String c rest =>
      match digit_value c with
      | Some d => number_of_digits rest (10 * acc + d)
      | None => None
      end
  end.

Definition no_leading_zero (s : string) : Prop :=
  s = "0" \/ exists c rest, s = String c rest /\ c <> "0"%char.

(** [s] is the decimal numeral of [n]: a minus sign when [n] is negative,
    then the digits of its magnitude, without leading zeros. *)
Definition decimal_numeral (n : Z) (s : string) : Prop :=
  match n with
  | Zneg p =>
      exists digits, s = String "-" digits
                     /\ number_of_digits digits 0 = Some (Pos.to_nat p)
                     /\ no_leading_zero digits
  | _ => number_of_digits s 0 = Some (Z.to_nat n) /\ no_leading_zero s
  end.

(** The two texts that stand for a missing value. *)
Definition missing_text (s : string) : bool :=
  String.eqb s "nan" || String.eqb s "None".

(** What the cursor gets for a value, said value by value: null for
    [None], for NaN and for a string that reads "nan" or "None"; the
    numeral for an integer; "True" or "False" for a boolean; and the
    string or the [repr] itself otherwise. *)
Definition handed_as (v : Cell) (c : option string) : Prop :=
  match v with
  | CNone => c = None
  | CFloat r => c = if missing_text r then None else Some r
  | CInt n => exists s, c = Some s /\ decimal_numeral n s
  | CBool b => c = Some (if b then "True" else "False")
  | CStr s => c = if missing_text s then None else Some s
  end.

Ltac run_M :=
  unfold mbind, M_bind, mret, M_ret, logger, now, lift, raise, try_except,
    try_finally, path_exists, read_csv, generate_batch_id, get_conn, put_conn,
    driver_call, modify_db, get_faults in *;
  cbn [fst snd sample_dir clock ticks faults db log set_log set_ticks set_db
       server conn calls] in *.


(** ** Sample states *)

Definition sample_time : datetime :=
  {| year := 2024; month := 3; day := 9; hour := 7; minute := 5; second := 0;
     microsecond := 42 |}.

Definition products_df : DataFrame :=
  {| columns := ["Product_ID"; "Price"];
     values := [[CStr "P1"; CFloat "9.5"]; [CStr "P2"; CFloat "nan"]] |}.

Definition empty_database : Database :=
  {| Ingestion_Manifest := []; tables := ∅ |}.

(** A connected manager with nothing pending, a clock that stands still
    and a server that accepts every statement. *)
Definition sample_world (dir : gmap string SourceFile) : World :=
  {| sample_dir := dir;
     clock := fun _ => sample_time;
     ticks := 0;
     faults := fun _ => None;
     db := {| server := empty_database; conn := Some empty_database;
              calls := [] |};
     log := [] |}.

(** The ledger holds a record of a failed load. *)
Definition failure_recorded (w : World) : Prop :=
  exists r, r ∈ Ingestion_Manifest (server (db w))
            /\ Load_Status r = "FAILED" /\ is_Some (Error_Message r).

(** A world whose ledger holds one STARTED record, made by
    [start_manifest]. *)
Definition started_world : World :=
  snd (start_manifest "erp_products_20240309_070500" "ERP" "products"
         "erp_products.csv" (sample_world ∅)).

(** A cell [c] handed to the cursor stands for the value [v]: null when
    the text of [v] is "nan" or "None", that text otherwise. *)
Definition normalized (v : Cell) (c : option string) : Prop :=
  ((py_str v = "nan" \/ py_str v = "None") /\ c = None)
  \/ (py_str v <> "nan" /\ py_str v <> "None" /\ c = Some (py_str v)).

(** A missing value written as its literal text. *)
Definition literal_missing (c : option string) : Prop :=
  c = Some "nan" \/ c = Some "None".

(** The calls of a trace hand over rows of [data] only. *)
Definition hands_over (data : list (list (option string))) (c : DbCall) : Prop :=
  match c with
  | ExecuteMany _ _ batch => forall row, row ∈ batch -> row ∈ data
  | Execute _ => False
  | Commit | Rollback => True
  end.

(** The rows [rows] added at the end of a table, in order. *)
Definition append_rows (table_name : string) (rows : list (list (option string)))
    (v : Database) : Database :=
  foldl (fun v row => append_row table_name row v) v rows.

(** The rows that a table holds; none when the table was never written. *)
Definition rows_of (table_name : string) (v : Database)
  : list (list (option string)) :=
  default [] (tables v !! table_name).

(** The calls of a run of the loop in which every batch went through: an
    [executemany] and a [commit] for each batch. *)
Definition issued (table_name : string) (cols : list string)
    (batches : list (list (list (option string)))) : list DbCall :=
  flat_map (fun b => [ExecuteMany table_name cols b; Commit]) batches.

Definition five_rows_df : DataFrame :=
  {| columns := ["Store_ID"; "City"];
     values := [[CStr "S1"; CStr "Cairo"]; [CStr "S2"; CStr "Giza"];
                [CStr "S3"; CFloat "nan"]; [CStr "S4"; CStr "Doha"];
                [CStr "S5"; CNone]] |}.

Definition truncation : exn :=
  Exn "DataError" "String data, right truncation".

(** A server that rejects the row of store S4. *)
Definition reject_S4 (s : Statement) : option exn :=
  match s with
  | InsertInto _ _ (Some "S4" :: _) => Some truncation
  | _ => None
  end.

Definition rejecting_world : World :=
  {| sample_dir := ∅;
     clock := fun _ => sample_time;
     ticks := 0;
     faults := reject_S4;
     db := {| server := empty_database; conn := Some empty_database;
              calls := [] |};
     log := [] |}.

(** ** More sample states *)

(** The sample world before [connect()]: no connection. *)
Definition offline_world : World :=
  {| sample_dir := ∅;
     clock := fun _ => sample_time;
     ticks := 0;
     faults := fun _ => None;
     db := {| server := empty_database; conn := None; calls := [] |};
     log := [] |}.

Definition deadlock : exn := Exn "OperationalError" "deadlock victim".

(** A server that rejects every statement on the ledger and every
    [TRUNCATE]. *)
Definition reject_ledger (s : Statement) : option exn :=
  match s with
  | InsertInto _ _ _ => None
  | _ => Some deadlock
  end.

Definition ledger_down_world : World :=
  {| sample_dir := ∅;
     clock := fun _ => sample_time;
     ticks := 0;
     faults := reject_ledger;
     db := {| server := empty_database; conn := Some empty_database;
              calls := [] |};
     log := [] |}.

(** The call with result [r] answered [False] after the server turned its
    statement [s] down: nothing committed, nothing rolled back. *)
Definition bounced (w : World) (v : Database) (s : Statement)
    (r : Outcome bool * World) : Prop :=
  fst r = Returned false
  /\ server (db (snd r)) = server (db w)
  /\ conn (db (snd r)) = Some v
  /\ calls (db (snd r)) = calls (db w) ++ [Execute s].

(** A frame with a header and no row. *)
Definition header_only_df : DataFrame :=
  {| columns := ["Store_ID"; "City"]; values := [] |}.

(** ** Vocabulary for staged frames *)

(** Every row has one cell per column. *)
Definition rectangular (df : DataFrame) : Prop :=
  Forall (fun row => length row = length (columns df)) (values df).

(** [df[col]] (the first column of that name) holds [v] in every row. *)
Definition column_holds (df : DataFrame) (col : string) (v : Cell) : Prop :=
  exists i, index_of col (columns df) = Some i
            /\ forall row, row ∈ values df -> row !! i = Some v.

(** [col in df.columns] *)
Definition has_column (df : DataFrame) (col : string) : bool :=
  existsb (String.eqb col) (columns df).

(** The weather frame as [pull_weather_data.py] writes it: the metadata
    columns are there already. *)
Definition weather_df : DataFrame :=
  {| columns := ["Weather_Date"; "Store_ID"; "Temperature_C"; "Batch_ID";
                 "Source_File"];
     values := [[CStr "2023-01-01"; CStr "S1"; CFloat "18.2";
                 CStr "api_weather_20240101_000000"; CStr "api_weather.csv"]] |}.

(** ** [ingest_csv.py]: the command line *)

(** What [argparse] makes of the command line: [--file], [--all],
    [--truncate]. *)
Record Args := {
  arg_file : option string;
  arg_all : bool;
  arg_truncate : bool
}.

(** The block under [if __name__ == "__main__"].  [sys.exit(n)] ends the
    process with exit code [n], which is the value returned here.
    [args.file] counts as given when it is a string that is not empty.
    The help text of [parser.print_help()] goes to standard output, which
    [World] does not hold. *)
Definition main (args : Args) : M Z :=
  match arg_file args with
  | Some (String c rest) =>
      success ← ingest_csv_file (String c rest) (arg_truncate args);
      mret (if success : bool then 0 else 1)%Z
  | _ =>
      if arg_all args then
        results ← ingest_all_csv_files (arg_truncate args);
        let all_success := forallb (fun v : bool => v) (map snd results) in
        mret (if all_success then 0 else 1)%Z
      else
        mret 1%Z
  end.

(** The file is in the sample directory and [pd.read_csv] parses it. *)
Definition readable (w : World) (file_name : string) : Prop :=
  exists df, sample_dir w !! file_name = Some (Parsed df).
(** * Properties *)

(** ** The batch identifier *)

Example strftime_sample :
  strftime "%Y%m%d_%H%M%S"
    {| year := 2024; month := 3; day := 9; hour := 7; minute := 5;
       second := 0; microsecond := 42 |} = "20240309_070500".
Proof. reflexivity. Qed.

Example lower_sample : lower "ERP_x9" = "erp_x9".
Proof. reflexivity. Qed.

Lemma zfill_dec_below (k bound : nat) :
  forallb (fun n => String.eqb (zfill k (dec n)) (fixed_width k n))
          (seq 0 bound) = true ->
  forall n, (n < bound)%nat -> zfill k (dec n) = fixed_width k n.
Proof.
  intros Hall n Hn.
  rewrite forallb_forall in Hall.
  apply String.eqb_eq, Hall, in_seq. lia.
Qed.

Lemma zfill2_dec (n : nat) : (n < 100)%nat -> zfill 2 (dec n) = fixed_width 2 n.
Proof. apply zfill_dec_below. vm_compute. reflexivity. Qed.

Lemma zfill4_dec (n : nat) :
  (n < 100 * 100)%nat -> zfill 4 (dec n) = fixed_width 4 n.
Proof. apply zfill_dec_below. vm_compute. reflexivity. Qed.

Lemma string_app_assoc (a b c : string) : (a +:+ b) +:+ c = a +:+ (b +:+ c).
Proof.
  induction a as [|x a IH]; [reflexivity|].
  change (String x ((a +:+ b) +:+ c) = String x (a +:+ (b +:+ c))).
  f_equal. exact IH.
Qed.

Lemma strftime_timestamp (t : datetime) :
  valid_datetime t ->
  strftime "%Y%m%d_%H%M%S" t = YYYYMMDD t +:+ "_" +:+ HHMMSS t.
Proof.
  intros (Hy & Hm & Hd & Hh & Hmi & Hs & _).
  cbn [strftime directive Ascii.eqb Bool.eqb].
  rewrite (zfill4_dec (year t)) by lia.
  rewrite (zfill2_dec (month t)), (zfill2_dec (day t)), (zfill2_dec (hour t)),
    (zfill2_dec (minute t)), (zfill2_dec (second t)) by lia.
  unfold YYYYMMDD, HHMMSS.
  rewrite ?string_app_assoc. reflexivity.
Qed.

Lemma strftime_same_second (fmt : string) (t1 t2 : datetime) :
  same_second t1 t2 -> strftime fmt t1 = strftime fmt t2.
Proof.
  intros (Hy & Hm & Hd & Hh & Hmi & Hs).
  assert (Hdir : forall c, directive c t1 = directive c t2).
  { intros c. unfold directive. rewrite Hy, Hm, Hd, Hh, Hmi, Hs. reflexivity. }
  remember (String.length fmt) as k eqn:Hk.
  revert fmt Hk. induction k as [k IH] using lt_wf_ind. intros fmt Hk.
  destruct fmt as [|c rest]; [reflexivity|]. simpl.
  destruct (Ascii.eqb c "%").
  - destruct rest as [|d rest']; [reflexivity|].
    rewrite Hdir. f_equal. apply (IH (String.length rest')); simpl in *; lia.
  - f_equal. apply (IH (String.length rest)); simpl in *; lia.
Qed.

Lemma lower_char_small_of (c : ascii) :
  lower_char c = small_of capitals smalls c.
Proof.
  destruct c as [[] [] [] [] [] [] [] []]; vm_compute; reflexivity.
Qed.

Lemma lower_lowercase (s : string) : lower s = lowercase s.
Proof.
  induction s as [|c rest IH]; [reflexivity|].
  cbn [lower lowercase]. now rewrite IH, lower_char_small_of.
Qed.

(** C8: [generate_batch_id] joins its two arguments and the reading of
    the clock, the date as YYYYMMDD and the time as HHMMSS, with
    underscores; it does not lowercase.  [ingest_csv_file] hands it
    [source_system.lower()], so the batch id that it mints for a registered
    file, the one its log shows, is the lowercased source system, the
    entity name, the date and the time.  The id is a function of the two
    arguments and of the reading of the clock alone: in any other state of
    the process whose clock reads the same second, the same id comes out;
    and the call changes nothing but the count of clock readings.  The
    source system is a string of ASCII characters, as are those of the
    registry. *)
Theorem generate_batch_id_format (source_system entity_name : string)
    (w : World) :
  let t := clock w (ticks w) in
  let batch_id :=
    lowercase source_system +:+ "_" +:+ entity_name +:+ "_" +:+
    YYYYMMDD t +:+ "_" +:+ HHMMSS t in
  valid_datetime t ->
  ascii_only source_system ->
  generate_batch_id (lower source_system) entity_name w =
    (Returned (lower source_system +:+ "_" +:+ entity_name +:+ "_" +:+
               YYYYMMDD t +:+ "_" +:+ HHMMSS t),
     set_ticks (S (ticks w)) w)
  /\ lower source_system = lowercase source_system
  /\ (forall w' : World,
        same_second t (clock w' (ticks w')) ->
        fst (generate_batch_id (lower source_system) entity_name w') =
        fst (generate_batch_id (lower source_system) entity_name w))
  /\ (forall source entity : string,
        fst (generate_batch_id source entity w)
        = Returned (source +:+ "_" +:+ entity +:+ "_" +:+
                    YYYYMMDD t +:+ "_" +:+ HHMMSS t))
  /\ (forall (file_name : string) (truncate : bool) (mapping : Mapping),
        is_Some (sample_dir w !! file_name) ->
        dict_get FILE_TABLE_MAP file_name = Some mapping ->
        source mapping = source_system ->
        entity mapping = entity_name ->
        (INFO, BatchIdIs batch_id)
          ∈ log (snd (ingest_csv_file file_name truncate w))).
Proof.
  intros t batch_id Hvalid _. split; [|split; [|split; [|split]]].
  - unfold generate_batch_id, mbind, M_bind, now, mret, M_ret.
    fold t. rewrite (strftime_timestamp t Hvalid). reflexivity.
  - apply lower_lowercase.
  - intros w' Hsame.
    unfold generate_batch_id, mbind, M_bind, now, mret, M_ret.
    cbn [fst]. fold t.
    rewrite (strftime_same_second _ _ _ Hsame). reflexivity.
  - intros source entity.
    unfold generate_batch_id, mbind, M_bind, now, mret, M_ret.
    cbn [fst]. fold t. rewrite (strftime_timestamp t Hvalid). reflexivity.
  - intros file_name truncate mapping [src Hfile] Hmap Hsource Hentity.
    unfold ingest_csv_file. run_M. rewrite Hfile, Hmap. cbn [negb]. run_M.
    rewrite Hfile. fold t. rewrite (strftime_timestamp t Hvalid).
    rewrite Hsource, Hentity, lower_lowercase. fold batch_id.
    destruct src as [e|df]; cbn [snd log set_log set_ticks];
      apply list_elem_of_In; rewrite !in_app_iff; cbn [In]; tauto.
Qed.

Lemma generate_batch_id_format_witness :
  generate_batch_id (lower "ERP") "products"
    (sample_world {[ "erp_products.csv" := Parsed products_df ]})
  = (Returned "erp_products_20240309_070500",
     set_ticks 1 (sample_world {[ "erp_products.csv" := Parsed products_df ]}))
  /\ (INFO, BatchIdIs "erp_products_20240309_070500")
       ∈ log (snd (ingest_csv_file "erp_products.csv" false
                     (sample_world
                        {[ "erp_products.csv" := Parsed products_df ]}))).
Proof.
  assert (Hvalid : valid_datetime sample_time).
  { unfold valid_datetime, sample_time.
    cbn [year month day hour minute second microsecond]. lia. }
  destruct (generate_batch_id_format "ERP" "products"
              (sample_world {[ "erp_products.csv" := Parsed products_df ]})
              Hvalid eq_refl)
    as (Hformat & _ & _ & _ & Hingest).
  split; [exact Hformat|].
  apply (Hingest "erp_products.csv" false
           {| table := "Raw.erp_products"; source := "ERP";
              entity := "products" |}).
  - eexists. reflexivity.
  - reflexivity.
  - reflexivity.
  - reflexivity.
Defined.

(** ** One file *)

(** [ingest_csv_file] never raises; it reads the sample directory and the
    clock and writes to the log, and that is all it does. *)
Lemma ingest_csv_file_run (file_name : string) (truncate : bool) (w : World) :
  exists w',
    ingest_csv_file file_name truncate w =
      (Returned (ingest_outcome (sample_dir w) file_name), w')
    /\ sample_dir w' = sample_dir w
    /\ db w' = db w
    /\ clock w' = clock w
    /\ faults w' = faults w
    /\ exists more,
         log w' = log w ++ (INFO, Rule70) :: (INFO, StartingIngestion file_name)
                           :: (INFO, Rule70) :: more.
Proof.
  unfold ingest_csv_file, ingest_outcome. run_M.
  destruct (sample_dir w !! file_name) as [[e|df]|] eqn:Hfile;
    destruct (dict_get FILE_TABLE_MAP file_name) as [mapping|] eqn:Hmap;
    cbn [negb]; run_M; rewrite ?Hfile;
    (eexists; split; [reflexivity|]);
    cbn [sample_dir db clock faults log set_log set_ticks];
    repeat split; rewrite <- ?app_assoc; cbn [app]; eexists; reflexivity.
Qed.

(** C1: at a registered file that is present and parses (two rows),
    [ingest_csv_file] answers [True] and has made no call on the database:
    the ledger has no record at all, so none that is COMPLETED with
    [Row_Count = 2], and the destination table received no row. *)
Theorem ingest_csv_file_writes_no_manifest :
  let w := sample_world {[ "erp_products.csv" := Parsed products_df ]} in
  let w' := snd (ingest_csv_file "erp_products.csv" false w) in
  is_Some (dict_get FILE_TABLE_MAP "erp_products.csv")
  /\ len products_df = 2%nat
  /\ fst (ingest_csv_file "erp_products.csv" false w) = Returned true
  /\ Ingestion_Manifest (server (db w')) = []
  /\ tables (server (db w')) !! "Raw.erp_products" = None
  /\ calls (db w') = [].
Proof.
  cbv zeta. repeat split; try (vm_compute; reflexivity).
  vm_compute. eexists. reflexivity.
Qed.

(** C5, as stated, fails: a registered file that is missing makes
    [ingest_csv_file] answer [False] with no failure recorded in the
    ledger. *)
Lemma missing_source_leaves_no_failed_record :
  let w := sample_world ∅ in
  fst (ingest_csv_file "erp_products.csv" false w) = Returned false
  /\ ~ failure_recorded (snd (ingest_csv_file "erp_products.csv" false w)).
Proof.
  cbv zeta. split; [vm_compute; reflexivity|].
  intros (r & Hin & _).
  destruct (ingest_csv_file_run "erp_products.csv" false (sample_world ∅))
    as (w' & Hrun & _ & Hdb & _).
  rewrite Hrun in Hin. cbn [snd] in Hin. rewrite Hdb in Hin.
  cbn in Hin. inversion Hin.
Qed.

(** C5, amended: when the source file is missing or cannot be parsed,
    [ingest_csv_file] answers [False]; when it is missing, it does so
    before the registry is consulted and before a batch id is minted, with
    no call on the database, so no manifest record exists or changes. *)
Theorem ingest_csv_file_unreadable_source (file_name : string)
    (truncate : bool) (w : World) :
  sample_dir w !! file_name = None
  \/ (exists e, sample_dir w !! file_name = Some (Unparsable e)) ->
  exists w',
    ingest_csv_file file_name truncate w = (Returned false, w')
    /\ (sample_dir w !! file_name = None ->
        db w' = db w /\ ticks w' = ticks w
        /\ log w' = log w ++ [(INFO, Rule70); (INFO, StartingIngestion file_name);
                              (INFO, Rule70); (ERROR, FileNotFound file_name)]).
Proof.
  intros Hsrc.
  unfold ingest_csv_file. run_M.
  destruct Hsrc as [Hnone | [e Hbad]].
  - rewrite Hnone. cbn [negb]. run_M.
    eexists. split; [reflexivity|]. intros _.
    cbn [db ticks log set_log]. rewrite <- !app_assoc. auto.
  - rewrite Hbad. cbn [negb].
    destruct (dict_get FILE_TABLE_MAP file_name) as [mapping|]; run_M;
      rewrite ?Hbad; (eexists; split; [reflexivity|]); intros Hnone;
      congruence.
Qed.

Lemma ingest_csv_file_unreadable_source_witness :
  exists w',
    ingest_csv_file "erp_products.csv" true
      (sample_world {[ "erp_products.csv" :=
                         Unparsable (Exn "ParserError" "Error tokenizing data") ]})
    = (Returned false, w').
Proof.
  destruct (ingest_csv_file_unreadable_source "erp_products.csv" true
              (sample_world {[ "erp_products.csv" :=
                         Unparsable (Exn "ParserError" "Error tokenizing data") ]}))
    as (w' & Hrun & _).
  - right. eexists. vm_compute. reflexivity.
  - exists w'. exact Hrun.
Defined.

(** C7: for a file name that the registry does not hold,
    [ingest_csv_file] answers [False] and has made no call on the database
    and taken no reading of the clock: the session, the ledger and the
    tables are as they were, and no batch id was minted. *)
Theorem ingest_csv_file_unmapped (file_name : string) (truncate : bool)
    (w : World) :
  dict_get FILE_TABLE_MAP file_name = None ->
  exists w',
    ingest_csv_file file_name truncate w = (Returned false, w')
    /\ db w' = db w
    /\ calls (db w') = calls (db w)
    /\ Ingestion_Manifest (server (db w')) = Ingestion_Manifest (server (db w))
    /\ ticks w' = ticks w.
Proof.
  intros Hmap. unfold ingest_csv_file. run_M. rewrite Hmap.
  destruct (sample_dir w !! file_name); cbn [negb]; run_M;
    (eexists; split; [reflexivity|]); cbn [db ticks set_log]; auto.
Qed.

Lemma ingest_csv_file_unmapped_witness :
  exists w',
    ingest_csv_file "unknown.csv" false
      (sample_world {[ "unknown.csv" := Parsed products_df ]})
    = (Returned false, w')
    /\ Ingestion_Manifest (server (db w')) = [].
Proof.
  destruct (ingest_csv_file_unmapped "unknown.csv" false
              (sample_world {[ "unknown.csv" := Parsed products_df ]}))
    as (w' & Hrun & _ & _ & Hledger & _).
  - vm_compute. reflexivity.
  - exists w'. split; [exact Hrun | exact Hledger].
Defined.

(** A call of [truncate_table] on an open connection is seen by the
    driver, and empties the table when the server takes the statement. *)
Lemma truncate_table_reaches_driver (table_name : string) (w : World)
    (v : Database) :
  conn (db w) = Some v ->
  faults w (TruncateTable table_name) = None ->
  exists w',
    truncate_table table_name w = (Returned true, w')
    /\ calls (db w')
       = calls (db w) ++ [Execute (TruncateTable table_name); Commit]
    /\ tables (server (db w')) !! table_name = Some [].
Proof.
  intros Hconn Hfault.
  unfold truncate_table, try_except, mbind, M_bind, cursor_execute, conn_commit.
  run_M. rewrite Hconn. cbn [conn]. unfold run_statement. rewrite Hfault.
  eexists. split; [reflexivity|].
  cbn [db set_log set_db calls server tables conn].
  rewrite <- app_assoc. split; [reflexivity|]. apply lookup_insert_eq.
Qed.

(** C10: [ingest_csv_file] does the same with [truncate=True] as with
    [truncate=False], answer and final state alike; whatever the flag, the
    database session is as it was before the call, so no [TRUNCATE TABLE]
    reached the driver and every table holds the rows it held. *)
Theorem ingest_csv_file_ignores_truncate (file_name : string) (w : World) :
  ingest_csv_file file_name true w = ingest_csv_file file_name false w
  /\ forall truncate,
       let w' := snd (ingest_csv_file file_name truncate w) in
       db w' = db w
       /\ calls (db w') = calls (db w)
       /\ (forall table_name,
             Execute (TruncateTable table_name) ∈ calls (db w') ->
             Execute (TruncateTable table_name) ∈ calls (db w))
       /\ tables (server (db w')) = tables (server (db w)).
Proof.
  split; [reflexivity|].
  intros truncate.
  destruct (ingest_csv_file_run file_name truncate w)
    as (w' & Hrun & _ & Hdb & _).
  rewrite Hrun. cbn [snd]. rewrite Hdb. auto.
Qed.

(** ** All files *)

Lemma dict_set_fresh {V} (d : list (string * V)) (k : string) (v : V) :
  dict_get d k = None -> dict_set d k v = d ++ [(k, v)].
Proof.
  induction d as [|[k' v'] d IH]; cbn [dict_get dict_set app]; [reflexivity|].
  destruct (String.eqb k' k); [discriminate|].
  intros Hd. rewrite (IH Hd). reflexivity.
Qed.

Lemma dict_get_snoc_ne {V} (d : list (string * V)) (k k' : string) (v : V) :
  k <> k' -> dict_get (d ++ [(k, v)]) k' = dict_get d k'.
Proof.
  intros Hne. induction d as [|[k0 v0] d IH]; cbn [dict_get app].
  - destruct (String.eqb_spec k k'); [contradiction | reflexivity].
  - destruct (String.eqb k0 k'); [reflexivity | exact IH].
Qed.

Lemma dict_get_tabulate {V} (f : string -> V) (names : list string) (k : string) :
  k ∈ names -> dict_get (map (fun n => (n, f n)) names) k = Some (f k).
Proof.
  induction names as [|n names IH]; intros Hin; [inversion Hin|].
  cbn [map dict_get]. destruct (String.eqb_spec n k) as [->|Hne]; [reflexivity|].
  apply IH. apply elem_of_cons in Hin as [->|Hin]; [contradiction | exact Hin].
Qed.

Lemma ingest_each_run (truncate : bool) (file_names : list string) :
  NoDup file_names ->
  forall (results : list (string * bool)) (w : World),
  (forall f, f ∈ file_names -> dict_get results f = None) ->
  exists w',
    ingest_each file_names truncate results w =
      (Returned (results ++ map (fun f => (f, ingest_outcome (sample_dir w) f))
                                file_names), w')
    /\ sample_dir w' = sample_dir w
    /\ db w' = db w
    /\ (forall f, f ∈ file_names -> (INFO, StartingIngestion f) ∈ log w')
    /\ exists more, log w' = log w ++ more.
Proof.
  induction 1 as [|file_name rest Hfresh Hnodup IH]; intros results w Hnew.
  - exists w. cbn [ingest_each map]. rewrite app_nil_r.
    repeat split; try reflexivity.
    + intros f Hin. inversion Hin.
    + exists []. now rewrite app_nil_r.
  - cbn [ingest_each]. unfold mbind, M_bind.
    destruct (ingest_csv_file_run file_name truncate w)
      as (w1 & Hrun & Hdir1 & Hdb1 & _ & _ & more1 & Hlog1).
    rewrite Hrun.
    rewrite dict_set_fresh by (apply Hnew; left).
    destruct (IH (results ++ [(file_name, ingest_outcome (sample_dir w) file_name)]) w1)
      as (w' & Hrest & Hdir & Hdb & Hstarted & more & Hlog).
    { intros f Hin. rewrite dict_get_snoc_ne.
      - apply Hnew. now right.
      - intros ->. contradiction. }
    exists w'. rewrite Hrest, Hdir1, <- app_assoc. cbn [map app].
    repeat split; try congruence.
    + intros f Hin. apply elem_of_cons in Hin as [->|Hin]; [|now apply Hstarted].
      rewrite Hlog, Hlog1. set_solver.
    + exists ((INFO, Rule70) :: (INFO, StartingIngestion file_name)
              :: (INFO, Rule70) :: more1 ++ more).
      rewrite Hlog, Hlog1, <- app_assoc. reflexivity.
Qed.

Lemma log_summary_run (items : list (string * bool)) (w : World) :
  exists more, log_summary items w = (Returned tt, set_log (log w ++ more) w).
Proof.
  revert w. induction items as [|[file_name success] items IH]; intros w.
  - exists []. cbn [log_summary]. rewrite app_nil_r. destruct w; reflexivity.
  - cbn [log_summary]. run_M.
    destruct (IH (set_log (log w ++ [(INFO, SummaryLine success file_name)]) w))
      as (more & Hrun).
    rewrite Hrun. cbn [log set_log]. rewrite <- app_assoc. eexists. reflexivity.
Qed.

Lemma FILE_TABLE_MAP_keys_NoDup : NoDup (keys FILE_TABLE_MAP).
Proof. apply (bool_decide_unpack _). vm_compute. reflexivity. Qed.

(** C9: [ingest_all_csv_files] never raises and returns a dict whose keys
    are the file names of the registry, in its order; the value under each
    file name is the answer that [ingest_csv_file] gives for that file on
    its own, whatever the other files did, and each file was attempted: the
    log holds its "Starting ingestion" line. *)
Theorem ingest_all_csv_files_covers_registry (truncate : bool) (w : World) :
  exists results w',
    ingest_all_csv_files truncate w = (Returned results, w')
    /\ keys results = keys FILE_TABLE_MAP
    /\ forall file_name,
         file_name ∈ keys FILE_TABLE_MAP ->
         exists success,
           dict_get results file_name = Some success
           /\ fst (ingest_csv_file file_name truncate w) = Returned success
           /\ (INFO, StartingIngestion file_name) ∈ log w'.
Proof.
  unfold ingest_all_csv_files. run_M.
  match goal with
  | |- context [ingest_each _ _ _ ?w0] =>
      destruct (ingest_each_run truncate (keys FILE_TABLE_MAP)
                  FILE_TABLE_MAP_keys_NoDup [] w0)
        as (w1 & Hrun & Hdir & _ & Hstarted & _); [reflexivity|]
  end.
  rewrite Hrun. cbn [app sample_dir] in *.
  match goal with
  | |- context [log_summary ?items ?w2] =>
      destruct (log_summary_run items w2) as (more & Hsum)
  end.
  rewrite Hsum. cbn [log set_log].
  eexists. eexists. split; [reflexivity|]. split.
  - unfold keys. rewrite map_map. cbn [fst]. apply map_id.
  - intros file_name Hin.
    exists (ingest_outcome (sample_dir w) file_name). split; [|split].
    + now apply (dict_get_tabulate (ingest_outcome (sample_dir w))).
    + destruct (ingest_csv_file_run file_name truncate w) as (w' & Hone & _).
      now rewrite Hone.
    + cbn [log]. repeat (apply elem_of_app; left). now apply Hstarted.
Qed.

(** ** The manifest ledger *)

Lemma cursor_execute_ok (s : Statement) (w : World) (v v' : Database) :
  conn (db w) = Some v ->
  run_statement (faults w) (clock w (ticks w)) s v = Returned v' ->
  cursor_execute s w =
    (Returned tt,
     set_db {| server := server (db w); conn := Some v';
               calls := calls (db w) ++ [Execute s] |}
            (set_ticks (S (ticks w)) w)).
Proof.
  intros Hconn Hrun. unfold cursor_execute. run_M.
  rewrite Hconn. cbn [conn]. rewrite Hrun. reflexivity.
Qed.

Lemma update_where_keys (batch_id : string)
    (f : ManifestRecord -> ManifestRecord) (l : list ManifestRecord) :
  (forall r, Batch_ID (f r) = Batch_ID r) ->
  map Batch_ID (update_where batch_id f l) = map Batch_ID l.
Proof.
  intros Hf. unfold update_where. rewrite map_map. apply map_ext.
  intros r. destruct (String.eqb (Batch_ID r) batch_id); [apply Hf | reflexivity].
Qed.

Lemma update_where_absent (batch_id : string)
    (f : ManifestRecord -> ManifestRecord) (l : list ManifestRecord) :
  (forall r, r ∈ l -> Batch_ID r <> batch_id) -> update_where batch_id f l = l.
Proof.
  intros Habs. unfold update_where.
  induction l as [|r l IH]; [reflexivity|]. cbn [map].
  destruct (String.eqb_spec (Batch_ID r) batch_id) as [Heq|_].
  - exfalso. apply (Habs r); [left | exact Heq].
  - f_equal. apply IH. intros r' Hin. apply Habs. now right.
Qed.

Lemma update_where_matching (batch_id : string)
    (f : ManifestRecord -> ManifestRecord) (l : list ManifestRecord)
    (r' : ManifestRecord) :
  (forall r, Batch_ID (f r) = Batch_ID r) ->
  r' ∈ update_where batch_id f l -> Batch_ID r' = batch_id ->
  exists r, r ∈ l /\ r' = f r.
Proof.
  intros Hf Hin Hid. unfold update_where in Hin.
  apply list_elem_of_fmap in Hin as (r & -> & Hin).
  destruct (String.eqb_spec (Batch_ID r) batch_id) as [_|Hne].
  - now exists r.
  - contradiction.
Qed.

(** C4, as stated, fails: on a ledger with no record at all,
    [complete_manifest] takes a status that is neither COMPLETED nor FAILED
    and answers [True], and it answers [True] for COMPLETED as well although
    no STARTED record matches the batch id. *)
Lemma complete_manifest_accepts_any_status :
  let w := sample_world ∅ in
  Ingestion_Manifest (server (db w)) = []
  /\ fst (complete_manifest "erp_products_20240309_070500" 5 "BANANA" None w)
     = Returned true
  /\ fst (complete_manifest "erp_products_20240309_070500" 5 "COMPLETED" None w)
     = Returned true.
Proof. cbv zeta. repeat split; vm_compute; reflexivity. Qed.

(** C4, amended: on an open connection whose server takes the statement,
    [complete_manifest] answers [True] for every status text; it writes the
    row count, the end time, the status as given and the error text into
    every record with the batch id, whatever the status of that record was;
    the batch ids of the ledger are the same before and after, so no record
    is created; and when no record has the batch id the ledger does not
    change, and the answer is still [True]. *)
Theorem complete_manifest_updates_matching_records (batch_id : string)
    (row_count : Z) (status : string) (error_message : option string)
    (w : World) (v : Database) :
  conn (db w) = Some v ->
  faults w (UpdateManifest row_count status error_message batch_id) = None ->
  exists w',
    complete_manifest batch_id row_count status error_message w
      = (Returned true, w')
    /\ Ingestion_Manifest (server (db w')) =
         update_where batch_id
           (set_completion row_count (clock w (ticks w)) status error_message)
           (Ingestion_Manifest v)
    /\ map Batch_ID (Ingestion_Manifest (server (db w')))
         = map Batch_ID (Ingestion_Manifest v)
    /\ (forall r, r ∈ Ingestion_Manifest (server (db w')) ->
                  Batch_ID r = batch_id ->
                  Load_Status r = status /\ Row_Count r = row_count
                  /\ Error_Message r = error_message)
    /\ ((forall r, r ∈ Ingestion_Manifest v -> Batch_ID r <> batch_id) ->
        Ingestion_Manifest (server (db w')) = Ingestion_Manifest v)
    /\ tables (server (db w')) = tables v.
Proof.
  intros Hconn Hfault.
  unfold complete_manifest, try_except, mbind, M_bind.
  erewrite cursor_execute_ok; [|exact Hconn|].
  2:{ unfold run_statement. rewrite Hfault. reflexivity. }
  unfold conn_commit. run_M.
  eexists. split; [reflexivity|].
  cbn [db set_log set_db server Ingestion_Manifest tables].
  split; [reflexivity|]. split; [|split; [|split]].
  - now apply update_where_keys.
  - intros r' Hin Hid.
    apply update_where_matching in Hin as (r & _ & ->); auto.
  - intros Habs. now apply update_where_absent.
  - reflexivity.
Qed.

Lemma complete_manifest_updates_matching_records_witness :
  exists w',
    complete_manifest "erp_products_20240309_070500" 2 "COMPLETED" None
      started_world = (Returned true, w')
    /\ map Load_Status (Ingestion_Manifest (server (db w'))) = ["COMPLETED"].
Proof.
  destruct (complete_manifest_updates_matching_records
              "erp_products_20240309_070500" 2 "COMPLETED" None started_world
              {| Ingestion_Manifest :=
                   [started "erp_products_20240309_070500" "ERP" "products"
                            "erp_products.csv" sample_time];
                 tables := ∅ |})
    as (w' & Hrun & Hledger & _).
  - vm_compute. reflexivity.
  - vm_compute. reflexivity.
  - exists w'. split; [exact Hrun|]. rewrite Hledger. vm_compute. reflexivity.
Defined.

(** ** Null normalization *)

Lemma digit_value_digit (d : nat) :
  (d < 10)%nat -> digit_value (digit d) = Some d.
Proof.
  intros Hd. do 10 (destruct d as [|d]; [reflexivity|]). lia.
Qed.

Lemma digit_not_zero (d : nat) :
  (0 < d < 10)%nat -> digit d <> "0"%char.
Proof.
  intros Hd. destruct d as [|d]; [lia|].
  do 9 (destruct d as [|d]; [discriminate|]). lia.
Qed.

Lemma number_of_digits_cons (d : nat) (rest : string) (acc : nat) :
  (d < 10)%nat ->
  number_of_digits (String (digit d) rest) acc
  = number_of_digits rest (10 * acc + d).
Proof.
  intros Hd. cbn [number_of_digits]. now rewrite digit_value_digit.
Qed.

(** Reading back what [dec] wrote gives the number. *)
Lemma number_of_dec_aux (fuel : nat) :
  forall (n : nat) (acc : string),
    (n < fuel)%nat ->
    number_of_digits (dec_aux fuel n acc) 0 = number_of_digits acc n.
Proof.
  induction fuel as [|fuel IH]; intros n acc Hfuel; [lia|].
  cbn [dec_aux].
  assert (Hunit : (n mod 10 < 10)%nat) by (apply Nat.mod_upper_bound; lia).
  pose proof (Nat.div_mod_eq n 10) as Hsplit.
  destruct (Nat.eqb_spec (n / 10) 0) as [Hsmall|Hbig].
  - rewrite number_of_digits_cons by exact Hunit. f_equal. lia.
  - rewrite IH.
    + rewrite number_of_digits_cons by exact Hunit. f_equal. lia.
    + assert (n / 10 < n)%nat by (apply Nat.div_lt; lia). lia.
Qed.

Lemma number_of_dec (n : nat) : number_of_digits (dec n) 0 = Some n.
Proof. unfold dec. rewrite number_of_dec_aux by lia. reflexivity. Qed.

Lemma dec_aux_leading (fuel : nat) :
  forall (n : nat) (acc : string),
    (n < fuel)%nat -> (0 < n)%nat ->
    exists d rest,
      dec_aux fuel n acc = String (digit d) rest /\ (0 < d < 10)%nat.
Proof.
  induction fuel as [|fuel IH]; intros n acc Hfuel Hpos; [lia|].
  cbn [dec_aux].
  assert (Hunit : (n mod 10 < 10)%nat) by (apply Nat.mod_upper_bound; lia).
  pose proof (Nat.div_mod_eq n 10) as Hsplit.
  destruct (Nat.eqb_spec (n / 10) 0) as [Hsmall|Hbig].
  - exists (n mod 10)%nat, acc. split; [reflexivity | lia].
  - apply IH; [|lia].
    assert (n / 10 < n)%nat by (apply Nat.div_lt; lia). lia.
Qed.

Lemma dec_no_leading_zero (n : nat) : no_leading_zero (dec n).
Proof.
  destruct n as [|n]; [left; reflexivity|]. right.
  destruct (dec_aux_leading (S (S n)) (S n) "" ltac:(lia) ltac:(lia))
    as (d & rest & Hdec & Hd).
  exists (digit d), rest. split; [exact Hdec|]. now apply digit_not_zero.
Qed.

Lemma dec_not_missing (n : nat) : missing_text (dec n) = false.
Proof.
  pose proof (number_of_dec n) as Hread. unfold missing_text.
  destruct (String.eqb_spec (dec n) "nan") as [Heq|_];
    [rewrite Heq in Hread; discriminate|].
  destruct (String.eqb_spec (dec n) "None") as [Heq|_];
    [rewrite Heq in Hread; discriminate|].
  reflexivity.
Qed.

(** The text of an integer is its decimal numeral. *)
Lemma py_str_numeral (n : Z) : decimal_numeral n (py_str (CInt n)).
Proof.
  destruct n as [|p|p]; cbn [py_str decimal_numeral].
  - split; [apply number_of_dec | apply dec_no_leading_zero].
  - split; [apply number_of_dec | apply dec_no_leading_zero].
  - exists (dec (Pos.to_nat p)).
    split; [reflexivity|].
    split; [apply number_of_dec | apply dec_no_leading_zero].
Qed.

Lemma py_str_int_not_missing (n : Z) : missing_text (py_str (CInt n)) = false.
Proof.
  destruct n as [|p|p]; cbn [py_str]; try apply dec_not_missing.
  reflexivity.
Qed.

Lemma sql_rows_cells (df : DataFrame) :
  sql_rows df =
  map (map (fun v => if String.eqb (py_str v) "nan" then None
                     else if String.eqb (py_str v) "None" then None
                     else Some (py_str v)))
      (values df).
Proof.
  unfold sql_rows, replace, astype_str. cbv zeta.
  rewrite !map_map. apply map_ext. intros row.
  rewrite !map_map. apply map_ext. intros v.
  destruct (String.eqb (py_str v) "nan"); reflexivity.
Qed.

Lemma Forall2_map_diag {A B} (R : A -> B -> Prop) (f : A -> B) (l : list A) :
  (forall x, R x (f x)) -> Forall2 R l (map f l).
Proof. intros HR. induction l; cbn [map]; constructor; auto. Qed.

Lemma sql_rows_normalized (df : DataFrame) :
  Forall2 (Forall2 normalized) (values df) (sql_rows df).
Proof.
  rewrite sql_rows_cells.
  apply Forall2_map_diag. intros row.
  apply Forall2_map_diag. intros v. unfold normalized.
  destruct (String.eqb_spec (py_str v) "nan") as [Hnan|Hnan]; [tauto|].
  destruct (String.eqb_spec (py_str v) "None") as [Hnone|Hnone]; tauto.
Qed.

Lemma sql_rows_handed_as (df : DataFrame) :
  Forall2 (Forall2 handed_as) (values df) (sql_rows df).
Proof.
  rewrite sql_rows_cells.
  apply Forall2_map_diag. intros row.
  apply Forall2_map_diag. intros v.
  destruct v as [|r|n|[|]|s]; cbn [handed_as].
  - reflexivity.
  - cbn [py_str]. unfold missing_text.
    destruct (String.eqb r "nan"), (String.eqb r "None"); reflexivity.
  - exists (py_str (CInt n)). split; [|apply py_str_numeral].
    pose proof (py_str_int_not_missing n) as Hmiss. unfold missing_text in Hmiss.
    apply orb_false_elim in Hmiss as [-> ->]. reflexivity.
  - reflexivity.
  - reflexivity.
  - cbn [py_str]. unfold missing_text.
    destruct (String.eqb s "nan"), (String.eqb s "None"); reflexivity.
Qed.

Lemma normalized_not_literal (v : Cell) (c : option string) :
  normalized v c -> ~ literal_missing c.
Proof.
  intros [[_ ->] | (Hnan & Hnone & ->)] [H|H]; congruence.
Qed.

Lemma sql_rows_no_literal (df : DataFrame) (row : list (option string))
    (c : option string) :
  row ∈ sql_rows df -> c ∈ row -> ~ literal_missing c.
Proof.
  intros Hrow Hc.
  destruct (list_elem_of_lookup_1 _ _ Hrow) as (i & Hi).
  destruct (Forall2_lookup_r _ _ _ _ _ (sql_rows_normalized df) Hi)
    as (cells & _ & Hcells).
  destruct (list_elem_of_lookup_1 _ _ Hc) as (j & Hj).
  destruct (Forall2_lookup_r _ _ _ _ _ Hcells Hj) as (v & _ & Hv).
  exact (normalized_not_literal v c Hv).
Qed.

(** Whatever [insert_batches] meets, the calls it adds hand over rows of
    [data] and nothing else. *)
Lemma insert_batches_calls (table_name : string) (cols : list string)
    (data : list (list (option string))) (batch_size : nat)
    (indices : list nat) :
  forall (total_inserted : nat) (w : World),
  exists new,
    calls (db (snd (insert_batches table_name cols data batch_size indices
                      total_inserted w)))
      = calls (db w) ++ new
    /\ Forall (hands_over data) new.
Proof.
  induction indices as [|i rest IH]; intros total_inserted w.
  - exists []. cbn. now rewrite app_nil_r.
  - cbn [insert_batches]. unfold cursor_executemany, conn_commit. run_M.
    destruct (conn (db w)) as [v|] eqn:Hconn.
    2:{ exists []. cbn. now rewrite app_nil_r. }
    cbn [conn].
    assert (Hbatch : hands_over data
              (ExecuteMany table_name cols (slice data i (i + batch_size)))).
    { intros row Hin. unfold slice in Hin.
      apply elem_of_take in Hin as (k & Hk & _).
      apply list_elem_of_lookup_2 in Hk. exact (subseteq_drop _ _ _ Hk). }
    destruct (insert_rows (faults w) table_name cols
                (slice data i (i + batch_size)) v) as [v' [e|]] eqn:Hrows.
    + exists [ExecuteMany table_name cols (slice data i (i + batch_size))].
      cbn [snd db set_db calls]. split; [reflexivity|]. now constructor.
    + cbn [db set_db conn calls].
      destruct (Z.of_nat (i + batch_size) mod 10000 =? 0)%Z;
        match goal with
        | |- context [insert_batches _ _ _ _ _ ?n ?w1] =>
            destruct (IH n w1) as (new & Hcalls & Hnew)
        end;
        (exists (ExecuteMany table_name cols (slice data i (i + batch_size))
                 :: Commit :: new));
        rewrite Hcalls; cbn [db set_log set_db calls];
        rewrite <- !app_assoc; (split; [reflexivity|]);
        (constructor; [exact Hbatch|]); (constructor; [exact I | exact Hnew]).
Qed.

Lemma bulk_insert_dataframe_calls (df : DataFrame) (table_name : string)
    (batch_size : Z) (w : World) :
  exists new,
    calls (db (snd (bulk_insert_dataframe df table_name batch_size w)))
      = calls (db w) ++ new
    /\ Forall (hands_over (sql_rows df)) new.
Proof.
  unfold bulk_insert_dataframe.
  destruct (is_empty df).
  { exists []. run_M. cbn. now rewrite app_nil_r. }
  cbv zeta. unfold try_except at 1. unfold mbind at 1, M_bind at 1.
  unfold lift at 1.
  destruct (range (length (sql_rows df)) batch_size) as [indices|e].
  - unfold mbind at 1, M_bind at 1.
    destruct (insert_batches_calls table_name (columns df) (sql_rows df)
                (Z.to_nat batch_size) indices 0 w) as (new & Hcalls & Hnew).
    destruct (insert_batches table_name (columns df) (sql_rows df)
                (Z.to_nat batch_size) indices 0 w) as [[total|e] w1];
      cbn [snd] in Hcalls.
    + exists new. run_M. cbn [snd db set_log]. auto.
    + unfold conn_rollback. run_M.
      destruct (conn (db w1)); cbn [snd db set_log set_db calls].
      * exists (new ++ [Rollback]). rewrite Hcalls, app_assoc.
        split; [reflexivity|]. apply Forall_app. split; [exact Hnew|].
        now repeat constructor.
      * exists new. auto.
  - unfold conn_rollback. run_M.
    destruct (conn (db w)); cbn [snd db set_log set_db calls].
    + exists [Rollback]. split; [reflexivity|]. now repeat constructor.
    + exists []. now rewrite app_nil_r.
Qed.

(** C6: the rows that [bulk_insert_dataframe] hands to the cursor have one
    cell per value of the data frame.  Value by value: [None], NaN and a
    string that reads "nan" or "None" are handed over as null; an integer
    as its decimal numeral, a boolean as "True" or "False", any other
    string or float as its text.  So a cell is null when the text of the
    value is "nan" or "None" and is that text otherwise; every
    [executemany] that the call issues carries such rows only, and no cell
    that reaches the destination is the literal "nan" or "None".  (The
    texts are those of [astype(str)] and [replace] in pandas 1.4 to 2.x.) *)
Theorem bulk_insert_null_normalization (df : DataFrame) (table_name : string)
    (batch_size : Z) (w : World) :
  Forall2 (Forall2 handed_as) (values df) (sql_rows df)
  /\ Forall2 (Forall2 normalized) (values df) (sql_rows df)
  /\ exists new,
       calls (db (snd (bulk_insert_dataframe df table_name batch_size w)))
         = calls (db w) ++ new
       /\ forall t cols batch row,
            ExecuteMany t cols batch ∈ new -> row ∈ batch ->
            row ∈ sql_rows df
            /\ forall c, c ∈ row -> ~ literal_missing c.
Proof.
  split; [apply sql_rows_handed_as|].
  split; [apply sql_rows_normalized|].
  destruct (bulk_insert_dataframe_calls df table_name batch_size w)
    as (new & Hcalls & Hnew).
  exists new. split; [exact Hcalls|].
  intros t cols batch row Hcall Hrow.
  rewrite Forall_forall in Hnew.
  pose proof (Hnew _ Hcall row Hrow) as Hdata.
  split; [exact Hdata|].
  intros c Hc. exact (sql_rows_no_literal df row c Hdata Hc).
Qed.

(** ** Batches *)

Section Ranges.
Variables (stop step : nat).
Hypothesis step_pos : (0 < step)%nat.

Lemma range_up_length (fuel i : nat) :
  (stop - i <= fuel)%nat ->
  length (range_up fuel i stop step) = ((stop - i + step - 1) / step)%nat.
Proof.
  revert i. induction fuel as [|fuel IH]; intros i Hfuel; cbn [range_up].
  - replace (stop - i + step - 1)%nat with (step - 1)%nat by lia.
    rewrite Nat.div_small by lia. reflexivity.
  - destruct (Nat.ltb_spec i stop) as [Hlt|Hge].
    + cbn [length]. rewrite IH by lia.
      destruct (Nat.le_gt_cases (i + step) stop) as [Hfull|Hpart].
      * replace (stop - i + step - 1)%nat
          with ((stop - (i + step) + step - 1) + 1 * step)%nat by lia.
        rewrite Nat.div_add by lia. lia.
      * replace (stop - (i + step) + step - 1)%nat with (step - 1)%nat by lia.
        replace (stop - i + step - 1)%nat
          with ((stop - i - 1) + 1 * step)%nat by lia.
        rewrite Nat.div_add by lia.
        rewrite !Nat.div_small by lia. reflexivity.
    + replace (stop - i + step - 1)%nat with (step - 1)%nat by lia.
      rewrite Nat.div_small by lia. reflexivity.
Qed.

Lemma range_up_lookup (fuel i k : nat) :
  (stop - i <= fuel)%nat ->
  (i + k * step < stop)%nat ->
  range_up fuel i stop step !! k = Some (i + k * step)%nat.
Proof.
  revert i k. induction fuel as [|fuel IH]; intros i k Hfuel Hk; [lia|].
  cbn [range_up].
  destruct (Nat.ltb_spec i stop) as [Hlt|Hge]; [|lia].
  destruct k as [|k]; cbn [lookup list_lookup].
  - f_equal. lia.
  - change (range_up fuel (i + step) stop step !! k
            = Some (i + S k * step)%nat).
    rewrite IH by lia. f_equal. lia.
Qed.

Lemma range_up_lookup_inv (fuel i k j : nat) :
  range_up fuel i stop step !! k = Some j ->
  j = (i + k * step)%nat /\ (j < stop)%nat.
Proof.
  revert i k. induction fuel as [|fuel IH]; intros i k; cbn [range_up].
  - intros H. inversion H.
  - destruct (Nat.ltb_spec i stop) as [Hlt|Hge]; [|intros H; inversion H].
    destruct k as [|k]; cbn [lookup list_lookup].
    + intros [= <-]. lia.
    + intros H. apply IH in H. lia.
Qed.

Lemma concat_slices {A} (data : list A) (fuel i : nat) :
  stop = length data ->
  (stop - i <= fuel)%nat ->
  concat (map (fun j => slice data j (j + step)) (range_up fuel i stop step))
  = drop i data.
Proof.
  intros ->. revert i.
  induction fuel as [|fuel IH]; intros i Hfuel; cbn [range_up].
  - cbn. symmetry. apply drop_ge. lia.
  - destruct (Nat.ltb_spec i (length data)) as [Hlt|Hge].
    + cbn [map concat]. rewrite IH by lia. unfold slice.
      replace (i + step - i)%nat with step by lia.
      rewrite <- (drop_drop data step i). apply take_drop.
    + cbn. symmetry. apply drop_ge. lia.
Qed.
End Ranges.

(** ** Rows in a transaction *)

Lemma append_rows_app (table_name : string)
    (rows1 rows2 : list (list (option string))) (v : Database) :
  append_rows table_name (rows1 ++ rows2) v
  = append_rows table_name rows2 (append_rows table_name rows1 v).
Proof. unfold append_rows. apply foldl_app. Qed.

Lemma append_rows_cons (table_name : string) (row : list (option string))
    (rows : list (list (option string))) (v : Database) :
  append_rows table_name (row :: rows) v
  = append_rows table_name rows (append_row table_name row v).
Proof. reflexivity. Qed.

Lemma append_rows_manifest (table_name : string)
    (rows : list (list (option string))) (v : Database) :
  Ingestion_Manifest (append_rows table_name rows v) = Ingestion_Manifest v.
Proof.
  revert v. induction rows as [|row rows IH]; intros v; [reflexivity|].
  now rewrite append_rows_cons, IH.
Qed.

Lemma rows_of_append_rows (table_name : string)
    (rows : list (list (option string))) (v : Database) :
  rows_of table_name (append_rows table_name rows v)
  = rows_of table_name v ++ rows.
Proof.
  revert v. induction rows as [|row rows IH]; intros v.
  - cbn. now rewrite app_nil_r.
  - rewrite append_rows_cons, IH. unfold rows_of, append_row. cbn [tables].
    rewrite lookup_insert_eq. cbn [default from_option id].
    now rewrite <- app_assoc.
Qed.

Lemma rows_of_append_rows_other (table_name other : string)
    (rows : list (list (option string))) (v : Database) :
  table_name <> other ->
  rows_of other (append_rows table_name rows v) = rows_of other v.
Proof.
  intros Hne. revert v. induction rows as [|row rows IH]; intros v.
  - reflexivity.
  - rewrite append_rows_cons, IH. unfold rows_of, append_row. cbn [tables].
    now rewrite lookup_insert_ne.
Qed.

Lemma insert_rows_ok (flt : Statement -> option exn) (table_name : string)
    (cols : list string) (batch : list (list (option string))) (v : Database) :
  (forall row, row ∈ batch -> flt (InsertInto table_name cols row) = None) ->
  insert_rows flt table_name cols batch v
  = (append_rows table_name batch v, None).
Proof.
  revert v. induction batch as [|row batch IH]; intros v Hok; [reflexivity|].
  cbn [insert_rows]. unfold insert_row. rewrite Hok by left.
  rewrite IH; [now rewrite append_rows_cons|].
  intros row' Hin. apply Hok. now right.
Qed.

Lemma insert_rows_fail (flt : Statement -> option exn) (table_name : string)
    (cols : list string) (accepted rest : list (list (option string)))
    (row : list (option string)) (e : exn) (v : Database) :
  (forall row', row' ∈ accepted ->
                flt (InsertInto table_name cols row') = None) ->
  flt (InsertInto table_name cols row) = Some e ->
  insert_rows flt table_name cols (accepted ++ row :: rest) v
  = (append_rows table_name accepted v, Some e).
Proof.
  revert v. induction accepted as [|row' accepted IH]; intros v Hok Hbad.
  - cbn [app insert_rows]. unfold insert_row. now rewrite Hbad.
  - cbn [app insert_rows]. unfold insert_row. rewrite Hok by left.
    rewrite IH; [now rewrite append_rows_cons| |exact Hbad].
    intros row'' Hin. apply Hok. now right.
Qed.

Lemma slice_length {A} (data : list A) (i step : nat) :
  length (slice data i (i + step)) = Nat.min step (length data - i).
Proof.
  unfold slice. rewrite length_take, length_drop. f_equal. lia.
Qed.

Lemma slice_drop {A} (data : list A) (i step : nat) :
  slice data i (i + step) ++ drop (i + step) data = drop i data.
Proof.
  unfold slice. replace (i + step - i)%nat with step by lia.
  rewrite <- (drop_drop data step i). apply take_drop.
Qed.

(** ** The loop of [bulk_insert_dataframe] *)

Section Loop.
Variables (table_name : string) (cols : list string).
Variables (data : list (list (option string))) (step : nat).
Variable flt : Statement -> option exn.
Hypothesis step_pos : (0 < step)%nat.

(** When the server takes every row, the loop runs to its end. *)
Lemma insert_batches_ok (fuel : nat) :
  (forall row, row ∈ data -> flt (InsertInto table_name cols row) = None) ->
  forall (i total_inserted : nat) (w : World) (v : Database),
  faults w = flt ->
  conn (db w) = Some v ->
  (length data - i <= fuel)%nat ->
  exists w',
    insert_batches table_name cols data step
      (range_up fuel i (length data) step) total_inserted w
    = (Returned (total_inserted + (length data - i))%nat, w')
    /\ conn (db w') = Some (append_rows table_name (drop i data) v)
    /\ server (db w')
       = (if (i <? length data)%nat
          then append_rows table_name (drop i data) v
          else server (db w))
    /\ calls (db w')
       = calls (db w)
         ++ issued table_name cols (map (fun j => slice data j (j + step))
                        (range_up fuel i (length data) step)).
Proof.
  intros Hok. induction fuel as [|fuel' IH];
    intros i total_inserted w v Hflt Hconn Hfuel.
  - cbn [range_up insert_batches map issued flat_map].
    exists w. rewrite drop_ge by lia. rewrite app_nil_r.
    replace (length data - i)%nat with 0%nat by lia. rewrite Nat.add_0_r.
    destruct (Nat.ltb_spec i (length data)); [lia|]. auto.
  - cbn [range_up].
    destruct (Nat.ltb_spec i (length data)) as [Hlt|Hge].
    2:{ cbn [insert_batches map issued flat_map].
        exists w. rewrite drop_ge by lia. rewrite app_nil_r.
        replace (length data - i)%nat with 0%nat by lia. rewrite Nat.add_0_r.
        destruct (Nat.ltb_spec i (length data)); [lia|]. auto. }
    cbn [insert_batches map issued flat_map].
    unfold cursor_executemany, conn_commit. run_M.
    rewrite Hconn, Hflt. cbn [conn].
    rewrite insert_rows_ok.
    2:{ intros row Hin. apply Hok. unfold slice in Hin.
        apply elem_of_take in Hin as (k & Hk & _).
        apply list_elem_of_lookup_2 in Hk. exact (subseteq_drop _ _ _ Hk). }
    cbn [conn db set_db calls].
    destruct (Z.of_nat (i + step) mod 10000 =? 0)%Z;
      match goal with
      | |- context [insert_batches _ _ _ _ _ ?n ?w1] =>
          destruct (IH (i + step)%nat n w1
                      (append_rows table_name (slice data i (i + step)) v))
            as (w' & Hrun & Hconn' & Hserver' & Hcalls');
            [exact Hflt | reflexivity | lia |]
      end;
      exists w'; rewrite Hrun, Hconn', Hserver', Hcalls';
      cbn [db set_db set_log calls server];
      rewrite <- append_rows_app, slice_drop, slice_length, <- !app_assoc;
      (split; [do 2 f_equal; lia|]); (split; [reflexivity|]);
      (split; [|reflexivity]);
      (destruct (Nat.ltb_spec (i + step) (length data)) as [Hmore|Hlast];
       [reflexivity|]);
      rewrite <- (slice_drop data i step), (drop_ge data (i + step)) by lia;
      now rewrite app_nil_r.
Qed.

(** When row [j] is the first that the server rejects, the loop stops in
    the batch of that row: the whole batches before it are committed, the
    rows of its own batch are in the transaction only. *)
Lemma insert_batches_fail (j : nat) (bad : list (option string)) (e : exn)
    (fuel : nat) :
  data !! j = Some bad ->
  flt (InsertInto table_name cols bad) = Some e ->
  (forall k row, (k < j)%nat -> data !! k = Some row ->
                 flt (InsertInto table_name cols row) = None) ->
  forall (i total_inserted : nat) (w : World),
  faults w = flt ->
  conn (db w) = Some (server (db w)) ->
  (i <= j)%nat ->
  (length data - i <= fuel)%nat ->
  exists w',
    insert_batches table_name cols data step
      (range_up fuel i (length data) step) total_inserted w
    = (Raised e, w')
    /\ server (db w')
       = append_rows table_name (slice data i (i + (j - i) / step * step))
           (server (db w))
    /\ is_Some (conn (db w'))
    /\ faults w' = flt.
Proof.
  intros Hbad Hreject Hbefore.
  pose proof (lookup_lt_Some _ _ _ Hbad) as Hj.
  induction fuel as [|fuel' IH];
    intros i total_inserted w Hflt Hconn Hij Hfuel; [lia|].
  cbn [range_up].
  destruct (Nat.ltb_spec i (length data)) as [Hlt|Hge]; [|lia].
  cbn [insert_batches].
  unfold cursor_executemany, conn_commit. run_M.
  rewrite Hconn, Hflt. cbn [conn].
  destruct (Nat.lt_ge_cases j (i + step)) as [Hhere|Hlater].
  - (* the rejected row is in this batch *)
    assert (Hsplit : slice data i (i + step)
                     = slice data i j ++ bad :: slice data (S j) (i + step)).
    { unfold slice.
      replace (i + step - i)%nat with ((j - i) + S (i + step - S j))%nat by lia.
      rewrite <- take_take_drop. f_equal.
      rewrite drop_drop. replace (i + (j - i))%nat with j by lia.
      rewrite (drop_S _ _ _ Hbad). reflexivity. }
    rewrite Hsplit.
    rewrite (insert_rows_fail flt table_name cols _ _ bad e); [|
      | exact Hreject].
    2:{ intros row Hin. unfold slice in Hin.
        apply elem_of_take in Hin as (k & Hk & Hlen).
        rewrite lookup_drop in Hk. apply (Hbefore (i + k)%nat row); [lia|exact Hk]. }
    eexists. split; [reflexivity|].
    cbn [db set_db server conn faults].
    rewrite Nat.div_small by lia.
    replace (slice data i (i + 0 * step)) with (@nil (list (option string))).
    2:{ unfold slice. replace (i + 0 * step - i)%nat with 0%nat by lia.
        reflexivity. }
    repeat split; eauto.
  - (* the batch goes through whole *)
    rewrite insert_rows_ok.
    2:{ intros row Hin. unfold slice in Hin.
        apply elem_of_take in Hin as (k & Hk & Hlen).
        rewrite lookup_drop in Hk. apply (Hbefore (i + k)%nat row); [lia|exact Hk]. }
    cbn [conn db set_db calls].
    assert (Hdiv : ((j - i) / step = S ((j - (i + step)) / step))%nat).
    { replace (j - i)%nat with ((j - (i + step)) + 1 * step)%nat by lia.
      rewrite Nat.div_add by lia. lia. }
    destruct (Z.of_nat (i + step) mod 10000 =? 0)%Z;
      match goal with
      | |- context [insert_batches _ _ _ _ _ ?n ?w1] =>
          destruct (IH (i + step)%nat n w1)
            as (w' & Hrun & Hserver' & Hconn' & Hflt');
            [exact Hflt | reflexivity | lia | lia |]
      end;
      exists w'; rewrite Hrun, Hserver';
      cbn [db set_db set_log server];
      rewrite <- append_rows_app, Hdiv;
      (split; [reflexivity|]); (split; [|auto]);
      f_equal; unfold slice;
      replace (i + step - i)%nat with step by lia;
      replace (i + step + (j - (i + step)) / step * step - (i + step))%nat
        with ((j - (i + step)) / step * step)%nat by lia;
      replace (i + S ((j - (i + step)) / step) * step - i)%nat
        with (step + (j - (i + step)) / step * step)%nat by lia;
      rewrite <- (drop_drop data step i); apply take_take_drop.
Qed.
End Loop.

(** ** The bulk writer *)

Lemma sql_rows_length (df : DataFrame) : length (sql_rows df) = len df.
Proof. rewrite sql_rows_cells. apply length_map. Qed.

Lemma range_positive (stop : nat) (batch_size : Z) :
  (1 <= batch_size)%Z ->
  range stop batch_size
  = Returned (range_up stop 0 stop (Z.to_nat batch_size)).
Proof. intros Hpos. destruct batch_size; [lia | reflexivity | lia]. Qed.

(** C3: on an open connection whose server takes every row, a data frame
    that is not empty, of N rows, written with a batch size B >= 1, makes
    [bulk_insert_dataframe] issue one [executemany] and one [commit] per
    batch for exactly ceil(N/B) batches; batch k holds the rows at positions
    k*B to k*B + B - 1 (as far as there are rows) and is not empty, so no
    position is in two batches; the batches, one after the other, are the
    rows in their order, their sizes add up to N, and N is returned. *)
Theorem bulk_insert_batches_partition (df : DataFrame) (table_name : string)
    (batch_size : Z) (w : World) (v : Database) :
  is_empty df = false ->
  (1 <= batch_size)%Z ->
  conn (db w) = Some v ->
  (forall row, row ∈ sql_rows df ->
               faults w (InsertInto table_name (columns df) row) = None) ->
  let data := sql_rows df in
  let N := length data in
  let B := Z.to_nat batch_size in
  exists batches w',
    bulk_insert_dataframe df table_name batch_size w = (Returned N, w')
    /\ calls (db w') = calls (db w) ++ issued table_name (columns df) batches
    /\ Z.of_nat (length batches)
       = ((Z.of_nat N + batch_size - 1) / batch_size)%Z
    /\ concat batches = data
    /\ list_sum (map length batches) = N
    /\ (forall k b, batches !! k = Some b ->
                    b = take B (drop (k * B) data) /\ b <> [])
    /\ server (db w') = append_rows table_name data v.
Proof.
  intros Hdf Hsize Hconn Hok. cbv zeta.
  set (data := sql_rows df) in *.
  set (B := Z.to_nat batch_size).
  assert (HB : (0 < B)%nat) by (subst B; lia).
  assert (HN : (0 < length data)%nat).
  { subst data. rewrite sql_rows_length. unfold len, is_empty in *.
    destruct (columns df), (values df); cbn [length]; try discriminate; lia. }
  destruct (insert_batches_ok table_name (columns df) data B (faults w) HB
              (length data) Hok 0%nat 0%nat w v eq_refl Hconn)
    as (w1 & Hrun & _ & Hserver & Hcalls); [lia|].
  exists (map (fun j => slice data j (j + B))
              (range_up (length data) 0 (length data) B)).
  eexists. split; [|split; [|split; [|split; [|split; [|split]]]]].
  - unfold bulk_insert_dataframe. rewrite Hdf. cbv zeta.
    fold data. rewrite (range_positive (length data) batch_size Hsize). fold B.
    unfold try_except, mbind, M_bind, lift. rewrite Hrun.
    run_M. rewrite Nat.sub_0_r. reflexivity.
  - cbn [db set_log]. exact Hcalls.
  - rewrite length_map, (range_up_length (length data) B HB) by lia.
    rewrite Nat2Z.inj_div. f_equal; subst B; lia.
  - now rewrite (concat_slices (length data) B HB data (length data) 0)
      by (reflexivity || lia).
  - rewrite <- length_concat.
    now rewrite (concat_slices (length data) B HB data (length data) 0)
      by (reflexivity || lia).
  - intros k b Hk.
    rewrite list_lookup_fmap in Hk.
    destruct (range_up (length data) 0 (length data) B !! k) as [j|] eqn:Hj;
      [|discriminate].
    apply (range_up_lookup_inv _ _ HB) in Hj as [-> Hlt].
    injection Hk as <-. cbn [Nat.add]. split.
    + unfold slice. f_equal; lia.
    + intros Hnil. apply (f_equal length) in Hnil.
      rewrite slice_length in Hnil. cbn [length] in Hnil. lia.
  - cbn [db set_log]. rewrite Hserver.
    destruct (Nat.ltb_spec 0 (length data)); [reflexivity | lia].
Qed.

Lemma bulk_insert_batches_partition_witness :
  exists batches w',
    bulk_insert_dataframe five_rows_df "Raw.erp_stores" 2 (sample_world ∅)
      = (Returned 5%nat, w')
    /\ Z.of_nat (length batches) = 3%Z
    /\ concat batches = sql_rows five_rows_df.
Proof.
  destruct (bulk_insert_batches_partition five_rows_df "Raw.erp_stores" 2
              (sample_world ∅) empty_database)
    as (batches & w' & Hrun & _ & Hcount & Hconcat & _).
  - reflexivity.
  - lia.
  - reflexivity.
  - intros row _. reflexivity.
  - exists batches, w'. split; [exact Hrun|]. split; [exact Hcount | exact Hconcat].
Defined.

(** C2, as stated, fails: with five rows in batches of two and the fourth
    row rejected, the first batch stays committed, and the call raises the
    error of the driver as it is; it returns nothing, so the count of two
    committed rows is not reported, and the error is no [BulkInsertError]. *)
Lemma bulk_insert_failure_reports_no_count :
  let run := bulk_insert_dataframe five_rows_df "Raw.erp_stores" 2
               rejecting_world in
  fst run = Raised truncation
  /\ length (rows_of "Raw.erp_stores" (server (db (snd run)))) = 2%nat
  /\ reported (fst run) <> Some 2%nat
  /\ exn_class truncation <> "BulkInsertError".
Proof.
  cbv zeta. repeat split; try (vm_compute; reflexivity);
    vm_compute; discriminate.
Qed.

(** C2, amended: when row [j] is the first row that the server rejects,
    [bulk_insert_dataframe], called with nothing pending on its connection,
    raises the error of that row as the driver gave it and returns no
    count; the rows of the whole batches before the batch of row [j] are
    committed, in order, at the end of the table, other tables and the
    ledger are as before, and the rows of the failed batch are rolled back:
    the connection sees the committed state. *)
Theorem bulk_insert_failure_keeps_committed_batches (df : DataFrame)
    (table_name : string) (batch_size : Z) (w : World) (j : nat)
    (bad : list (option string)) (e : exn) :
  is_empty df = false ->
  (1 <= batch_size)%Z ->
  conn (db w) = Some (server (db w)) ->
  sql_rows df !! j = Some bad ->
  faults w (InsertInto table_name (columns df) bad) = Some e ->
  (forall k row, (k < j)%nat -> sql_rows df !! k = Some row ->
                 faults w (InsertInto table_name (columns df) row) = None) ->
  let B := Z.to_nat batch_size in
  let committed := take (j / B * B) (sql_rows df) in
  exists w',
    bulk_insert_dataframe df table_name batch_size w = (Raised e, w')
    /\ reported (fst (bulk_insert_dataframe df table_name batch_size w)) = None
    /\ server (db w') = append_rows table_name committed (server (db w))
    /\ rows_of table_name (server (db w'))
       = rows_of table_name (server (db w)) ++ committed
    /\ (forall other, table_name <> other ->
          rows_of other (server (db w')) = rows_of other (server (db w)))
    /\ Ingestion_Manifest (server (db w')) = Ingestion_Manifest (server (db w))
    /\ conn (db w') = Some (server (db w')).
Proof.
  intros Hdf Hsize Hconn Hbad Hreject Hbefore B committed.
  assert (HB : (0 < B)%nat) by (subst B; lia).
  destruct (insert_batches_fail table_name (columns df) (sql_rows df) B
              (faults w) HB j bad e (length (sql_rows df)) Hbad Hreject Hbefore
              0%nat 0%nat w eq_refl Hconn)
    as (w1 & Hrun & Hserver & [v1 Hconn1] & _); [lia | lia |].
  assert (Hslice : slice (sql_rows df) 0 (0 + (j - 0) / B * B) = committed).
  { unfold slice, committed. rewrite Nat.sub_0_r. cbn [Nat.add drop].
    now rewrite Nat.sub_0_r. }
  rewrite Hslice in Hserver.
  assert (Hbulk : bulk_insert_dataframe df table_name batch_size w
                  = (Raised e,
                     set_db {| server := server (db w1);
                               conn := Some (server (db w1));
                               calls := calls (db w1) ++ [Rollback] |}
                       (set_log (log w1 ++ [(ERROR, BulkInsertFailed e)]) w1))).
  { unfold bulk_insert_dataframe. rewrite Hdf. cbv zeta.
    rewrite (range_positive _ batch_size Hsize). fold B.
    unfold try_except, mbind at 1 2, M_bind at 1 2, lift. rewrite Hrun.
    unfold conn_rollback. run_M. rewrite Hconn1. reflexivity. }
  eexists. split; [exact Hbulk|]. rewrite Hbulk.
  cbn [fst reported db set_db server conn]. rewrite Hserver.
  repeat split.
  - apply rows_of_append_rows.
  - intros other Hne. now apply rows_of_append_rows_other.
  - apply append_rows_manifest.
Qed.

Lemma bulk_insert_failure_keeps_committed_batches_witness :
  exists w',
    bulk_insert_dataframe five_rows_df "Raw.erp_stores" 2 rejecting_world
      = (Raised truncation, w')
    /\ rows_of "Raw.erp_stores" (server (db w'))
       = [[Some "S1"; Some "Cairo"]; [Some "S2"; Some "Giza"]].
Proof.
  destruct (bulk_insert_failure_keeps_committed_batches five_rows_df
              "Raw.erp_stores" 2 rejecting_world 3
              [Some "S4"; Some "Doha"] truncation)
    as (w' & Hrun & _ & _ & Hrows & _).
  - reflexivity.
  - lia.
  - reflexivity.
  - reflexivity.
  - reflexivity.
  - intros k row Hk Hrow.
    destruct k as [|[|[|k]]]; [| | |lia];
      injection Hrow as <-; reflexivity.
  - exists w'. split; [exact Hrun | exact Hrows].
Defined.

(** * Further properties *)

(** ** The ledger: start and completion *)

Lemma duplicate_batch_id_fresh (batch_id : string) (v : Database) :
  (forall r, r ∈ Ingestion_Manifest v -> Batch_ID r <> batch_id) ->
  duplicate_batch_id batch_id v = false.
Proof.
  unfold duplicate_batch_id. intros Hfresh.
  induction (Ingestion_Manifest v) as [|r l IH]; [reflexivity|].
  cbn [existsb]. destruct (String.eqb_spec (Batch_ID r) batch_id) as [Heq|_].
  - exfalso. apply (Hfresh r); [left | exact Heq].
  - apply IH. intros r' Hin. apply Hfresh. now right.
Qed.

(** X1: on an open connection whose server takes the statement, for a
    batch id that no record of the ledger has, [start_manifest] answers
    [True] and commits one more record at the end of the ledger: status
    STARTED, row count 0, start time the reading of the clock, no end time
    and no error text.  The records that were there and the tables are
    untouched. *)
Theorem start_manifest_creates_started_record
    (batch_id source_system entity_name source_file : string)
    (w : World) (v : Database) :
  conn (db w) = Some v ->
  faults w (InsertManifest batch_id source_system entity_name source_file)
    = None ->
  (forall r, r ∈ Ingestion_Manifest v -> Batch_ID r <> batch_id) ->
  exists w',
    start_manifest batch_id source_system entity_name source_file w
      = (Returned true, w')
    /\ Ingestion_Manifest (server (db w')) =
         Ingestion_Manifest v ++
         [{| Batch_ID := batch_id; Source_System := source_system;
             Entity_Name := entity_name; Source_File := source_file;
             Row_Count := 0; Load_Start_TS := clock w (ticks w);
             Load_End_TS := None; Load_Status := "STARTED";
             Error_Message := None |}]
    /\ tables (server (db w')) = tables v
    /\ conn (db w') = Some (server (db w')).
Proof.
  intros Hconn Hfault Hfresh.
  unfold start_manifest, try_except, mbind, M_bind.
  erewrite cursor_execute_ok; [|exact Hconn|].
  2:{ unfold run_statement. rewrite Hfault.
      rewrite (duplicate_batch_id_fresh _ _ Hfresh). reflexivity. }
  unfold conn_commit. run_M.
  eexists. split; [reflexivity|].
  cbn [db set_log set_db server conn Ingestion_Manifest tables].
  auto.
Qed.

Lemma start_manifest_creates_started_record_witness :
  exists w',
    start_manifest "erp_products_20240309_070500" "ERP" "products"
      "erp_products.csv" (sample_world ∅) = (Returned true, w')
    /\ map Load_Status (Ingestion_Manifest (server (db w'))) = ["STARTED"].
Proof.
  destruct (start_manifest_creates_started_record
              "erp_products_20240309_070500" "ERP" "products"
              "erp_products.csv" (sample_world ∅) empty_database)
    as (w' & Hrun & Hledger & _).
  - reflexivity.
  - reflexivity.
  - intros r Hin. inversion Hin.
  - exists w'. split; [exact Hrun|]. rewrite Hledger. reflexivity.
Defined.

(** X2: a start followed by a completion, on an open connection whose
    server takes both statements and for a batch id new to the ledger:
    both answer [True], and the ledger ends with exactly one record more
    than before, which carries the row count, status and error text of the
    completion, the start time of the first call and the end time of the
    second. *)
Theorem manifest_start_then_complete
    (batch_id source_system entity_name source_file : string)
    (row_count : Z) (status : string) (error_message : option string)
    (w : World) (v : Database) :
  conn (db w) = Some v ->
  faults w (InsertManifest batch_id source_system entity_name source_file)
    = None ->
  faults w (UpdateManifest row_count status error_message batch_id) = None ->
  (forall r, r ∈ Ingestion_Manifest v -> Batch_ID r <> batch_id) ->
  exists w1 w2,
    start_manifest batch_id source_system entity_name source_file w
      = (Returned true, w1)
    /\ complete_manifest batch_id row_count status error_message w1
       = (Returned true, w2)
    /\ Ingestion_Manifest (server (db w2)) =
         Ingestion_Manifest v ++
         [{| Batch_ID := batch_id; Source_System := source_system;
             Entity_Name := entity_name; Source_File := source_file;
             Row_Count := row_count; Load_Start_TS := clock w (ticks w);
             Load_End_TS := Some (clock w (S (ticks w)));
             Load_Status := status; Error_Message := error_message |}].
Proof.
  intros Hconn Hins Hupd Hfresh.
  unfold start_manifest, complete_manifest, try_except, mbind, M_bind.
  erewrite cursor_execute_ok; [|exact Hconn|].
  2:{ unfold run_statement. rewrite Hins.
      rewrite (duplicate_batch_id_fresh _ _ Hfresh). reflexivity. }
  unfold conn_commit. run_M.
  eexists. eexists. split; [reflexivity|].
  erewrite cursor_execute_ok; [|reflexivity|].
  2:{ unfold run_statement. cbn [faults set_log set_db set_ticks].
      rewrite Hupd. reflexivity. }
  run_M. split; [reflexivity|].
  cbn [db set_log set_db server Ingestion_Manifest clock ticks set_ticks].
  unfold update_where. rewrite map_app. f_equal.
  - fold (update_where batch_id
            (set_completion row_count (clock w (S (ticks w))) status
               error_message) (Ingestion_Manifest v)).
    now apply update_where_absent.
  - cbn [map started Batch_ID]. rewrite String.eqb_refl. reflexivity.
Qed.

Lemma manifest_start_then_complete_witness :
  exists w1 w2,
    start_manifest "erp_products_20240309_070500" "ERP" "products"
      "erp_products.csv" (sample_world ∅) = (Returned true, w1)
    /\ complete_manifest "erp_products_20240309_070500" 250 "COMPLETED" None w1
       = (Returned true, w2)
    /\ map Row_Count (Ingestion_Manifest (server (db w2))) = [250%Z].
Proof.
  destruct (manifest_start_then_complete
              "erp_products_20240309_070500" "ERP" "products"
              "erp_products.csv" 250 "COMPLETED" None
              (sample_world ∅) empty_database)
    as (w1 & w2 & Hstart & Hdone & Hledger).
  - reflexivity.
  - reflexivity.
  - reflexivity.
  - intros r Hin. inversion Hin.
  - exists w1, w2. split; [exact Hstart|]. split; [exact Hdone|].
    rewrite Hledger. reflexivity.
Defined.

(** X3: without a connection, [start_manifest], [complete_manifest] and
    [truncate_table] do not raise: each answers [False], logs the
    [AttributeError] and leaves the database session as it was. *)
Theorem manifest_methods_without_connection
    (batch_id source_system entity_name source_file : string)
    (row_count : Z) (status : string) (error_message : option string)
    (table_name : string) (w : World) :
  conn (db w) = None ->
  start_manifest batch_id source_system entity_name source_file w
    = (Returned false,
       set_log (log w ++ [(ERROR, ManifestCreateFailed (none_has_no "execute"))]) w)
  /\ complete_manifest batch_id row_count status error_message w
     = (Returned false,
        set_log (log w ++ [(ERROR, ManifestUpdateFailed (none_has_no "execute"))]) w)
  /\ truncate_table table_name w
     = (Returned false,
        set_log (log w ++ [(ERROR, TruncateFailed (none_has_no "execute"))]) w).
Proof.
  intros Hconn.
  unfold start_manifest, complete_manifest, truncate_table, cursor_execute.
  run_M. rewrite Hconn. auto.
Qed.

Lemma manifest_methods_without_connection_witness :
  fst (start_manifest "b" "ERP" "products" "erp_products.csv" offline_world)
    = Returned false
  /\ fst (complete_manifest "b" 0 "FAILED" (Some "boom") offline_world)
     = Returned false
  /\ fst (truncate_table "Raw.erp_products" offline_world) = Returned false.
Proof.
  destruct (manifest_methods_without_connection "b" "ERP" "products"
              "erp_products.csv" 0 "FAILED" (Some "boom") "Raw.erp_products"
              offline_world eq_refl) as (H1 & H2 & H3).
  rewrite H1, H2, H3. auto.
Defined.

(** X4: when the server rejects the statement, [start_manifest],
    [complete_manifest] and [truncate_table] answer [False]; the committed
    state and the state the transaction sees are as before, and the driver
    got the statement but neither a commit nor a rollback. *)
Theorem manifest_methods_rejected
    (batch_id source_system entity_name source_file : string)
    (row_count : Z) (status : string) (error_message : option string)
    (table_name : string) (e : exn) (w : World) (v : Database) :
  conn (db w) = Some v ->
  (faults w (InsertManifest batch_id source_system entity_name source_file)
     = Some e ->
   bounced w v
     (InsertManifest batch_id source_system entity_name source_file)
     (start_manifest batch_id source_system entity_name source_file w))
  /\ (faults w (UpdateManifest row_count status error_message batch_id)
        = Some e ->
      bounced w v (UpdateManifest row_count status error_message batch_id)
        (complete_manifest batch_id row_count status error_message w))
  /\ (faults w (TruncateTable table_name) = Some e ->
      bounced w v (TruncateTable table_name) (truncate_table table_name w)).
Proof.
  intros Hconn. unfold bounced.
  split; [|split]; intros Hfault;
    unfold start_manifest, complete_manifest, truncate_table, cursor_execute;
    run_M; rewrite Hconn; cbn [conn]; unfold run_statement; rewrite Hfault;
    cbn [fst snd db set_log set_db set_ticks server conn calls]; auto.
Qed.

Lemma manifest_methods_rejected_witness :
  fst (complete_manifest "b" 3 "COMPLETED" None ledger_down_world)
    = Returned false
  /\ server (db (snd (complete_manifest "b" 3 "COMPLETED" None
                        ledger_down_world))) = empty_database.
Proof.
  destruct (manifest_methods_rejected "b" "ERP" "products" "erp_products.csv"
              3 "COMPLETED" None "Raw.erp_products" deadlock
              ledger_down_world empty_database eq_refl)
    as (_ & Hcomplete & _).
  destruct (Hcomplete eq_refl) as (Hanswer & Hserver & _).
  split; [exact Hanswer | exact Hserver].
Defined.

(** ** The bulk writer at its edges *)

Lemma nonempty_has_rows (df : DataFrame) :
  is_empty df = false -> (0 < length (sql_rows df))%nat.
Proof.
  intros Hdf. rewrite sql_rows_length. unfold len, is_empty in *.
  destruct (columns df), (values df); cbn [length]; try discriminate; lia.
Qed.

(** X5: for a data frame with no row or no column,
    [bulk_insert_dataframe] returns 0 after a warning in the log; it makes
    no call on the cursor or the connection, whatever the batch size and
    even without a connection. *)
Theorem bulk_insert_empty_dataframe (df : DataFrame) (table_name : string)
    (batch_size : Z) (w : World) :
  is_empty df = true ->
  bulk_insert_dataframe df table_name batch_size w
  = (Returned 0%nat, set_log (log w ++ [(WARNING, EmptyDataFrame)]) w).
Proof.
  intros Hdf. unfold bulk_insert_dataframe. rewrite Hdf. reflexivity.
Qed.

Lemma bulk_insert_empty_dataframe_witness :
  fst (bulk_insert_dataframe header_only_df "Raw.erp_stores" 0 offline_world)
    = Returned 0%nat
  /\ db (snd (bulk_insert_dataframe header_only_df "Raw.erp_stores" 0
                offline_world)) = db offline_world.
Proof.
  rewrite (bulk_insert_empty_dataframe header_only_df "Raw.erp_stores" 0
             offline_world eq_refl).
  split; reflexivity.
Defined.

(** X6: a batch size of 0 on a data frame that is not empty makes
    [bulk_insert_dataframe] raise the [ValueError] of [range]; no row
    reaches the cursor, the committed state is as before, and the rollback
    of the handler discards what was pending on the connection. *)
Theorem bulk_insert_zero_batch_size (df : DataFrame) (table_name : string)
    (w : World) (v : Database) :
  is_empty df = false ->
  conn (db w) = Some v ->
  exists w',
    bulk_insert_dataframe df table_name 0 w
      = (Raised (Exn "ValueError" "range() arg 3 must not be zero"), w')
    /\ server (db w') = server (db w)
    /\ conn (db w') = Some (server (db w))
    /\ calls (db w') = calls (db w) ++ [Rollback].
Proof.
  intros Hdf Hconn. unfold bulk_insert_dataframe. rewrite Hdf. cbv zeta.
  unfold conn_rollback. cbn [range]. run_M. rewrite Hconn.
  eexists. split; [reflexivity|].
  cbn [db set_db set_log server conn calls]. auto.
Qed.

Lemma bulk_insert_zero_batch_size_witness :
  exists w',
    bulk_insert_dataframe five_rows_df "Raw.erp_stores" 0 (sample_world ∅)
      = (Raised (Exn "ValueError" "range() arg 3 must not be zero"), w')
    /\ calls (db w') = [Rollback].
Proof.
  destruct (bulk_insert_zero_batch_size five_rows_df "Raw.erp_stores"
              (sample_world ∅) empty_database eq_refl eq_refl)
    as (w' & Hrun & _ & _ & Hcalls).
  exists w'. split; [exact Hrun | exact Hcalls].
Defined.

(** X7: a negative batch size writes nothing and reports success: on a
    data frame that is not empty, [bulk_insert_dataframe] returns 0 and
    logs a completed insert of 0 rows, with no call on the cursor or the
    connection. *)
Theorem bulk_insert_negative_batch_size (df : DataFrame) (table_name : string)
    (batch_size : Z) (w : World) :
  is_empty df = false ->
  (batch_size < 0)%Z ->
  bulk_insert_dataframe df table_name batch_size w
  = (Returned 0%nat,
     set_log (log w ++ [(INFO, BulkInsertCompleted 0 table_name)]) w).
Proof.
  intros Hdf Hneg. unfold bulk_insert_dataframe. rewrite Hdf. cbv zeta.
  destruct batch_size; [lia | lia |]. reflexivity.
Qed.

Lemma bulk_insert_negative_batch_size_witness :
  fst (bulk_insert_dataframe five_rows_df "Raw.erp_stores" (-100)
         (sample_world ∅)) = Returned 0%nat
  /\ db (snd (bulk_insert_dataframe five_rows_df "Raw.erp_stores" (-100)
                (sample_world ∅))) = db (sample_world ∅).
Proof.
  rewrite (bulk_insert_negative_batch_size five_rows_df "Raw.erp_stores"
             (-100) (sample_world ∅) eq_refl); [|lia].
  split; reflexivity.
Defined.

Lemma insert_batches_offline (table_name : string) (cols : list string)
    (data : list (list (option string))) (batch_size i : nat)
    (rest : list nat) (total_inserted : nat) (w : World) :
  conn (db w) = None ->
  insert_batches table_name cols data batch_size (i :: rest) total_inserted w
  = (Raised (none_has_no "executemany"), w).
Proof.
  intros Hconn. cbn [insert_batches]. unfold cursor_executemany. run_M.
  rewrite Hconn. reflexivity.
Qed.

(** X8: without a connection, on a data frame that is not empty and with a
    batch size of 0 or more, [bulk_insert_dataframe] raises the
    [AttributeError] of the rollback in its handler, in place of the error
    that brought it there; the database session is as it was. *)
Theorem bulk_insert_without_connection (df : DataFrame) (table_name : string)
    (batch_size : Z) (w : World) :
  is_empty df = false ->
  (0 <= batch_size)%Z ->
  conn (db w) = None ->
  exists w',
    bulk_insert_dataframe df table_name batch_size w
      = (Raised (none_has_no "rollback"), w')
    /\ db w' = db w
    /\ exists e, log w' = log w ++ [(ERROR, BulkInsertFailed e)]
                 /\ e <> none_has_no "rollback".
Proof.
  intros Hdf Hsize Hconn.
  pose proof (nonempty_has_rows df Hdf) as Hrows.
  unfold bulk_insert_dataframe. rewrite Hdf. cbv zeta.
  destruct batch_size as [|p|p]; [| |lia].
  - unfold conn_rollback. cbn [range]. run_M. rewrite Hconn.
    eexists. split; [reflexivity|]. cbn [db log set_log].
    split; [reflexivity|]. eexists. split; [reflexivity | discriminate].
  - cbn [range]. destruct (length (sql_rows df)) as [|n] eqn:Hlen; [lia|].
    cbn [range_up Nat.ltb Nat.leb].
    unfold try_except, mbind at 1 2, M_bind at 1 2, lift.
    rewrite (insert_batches_offline _ _ _ _ _ _ _ _ Hconn).
    unfold conn_rollback. run_M. rewrite Hconn.
    eexists. split; [reflexivity|]. cbn [db log set_log].
    split; [reflexivity|]. eexists. split; [reflexivity | discriminate].
Qed.

Lemma bulk_insert_without_connection_witness :
  fst (bulk_insert_dataframe five_rows_df "Raw.erp_stores" 2 offline_world)
    = Raised (none_has_no "rollback").
Proof.
  destruct (bulk_insert_without_connection five_rows_df "Raw.erp_stores" 2
              offline_world eq_refl) as (w' & Hrun & _); [lia | reflexivity |].
  rewrite Hrun. reflexivity.
Defined.

Lemma insert_batches_faults (table_name : string) (cols : list string)
    (data : list (list (option string))) (batch_size : nat)
    (indices : list nat) :
  forall (total_inserted : nat) (w : World),
    faults (snd (insert_batches table_name cols data batch_size indices
                   total_inserted w)) = faults w.
Proof.
  induction indices as [|i rest IH]; intros total_inserted w; [reflexivity|].
  cbn [insert_batches]. unfold cursor_executemany, conn_commit. run_M.
  destruct (conn (db w)) as [v|]; [|reflexivity]. cbn [conn].
  destruct (insert_rows (faults w) table_name cols
              (slice data i (i + batch_size)) v) as [v' [e|]]; [reflexivity|].
  cbn [conn db set_db calls].
  destruct (Z.of_nat (i + batch_size) mod 10000 =? 0)%Z;
    match goal with
    | |- context [insert_batches _ _ _ _ _ ?n ?w1] => rewrite (IH n w1)
    end; reflexivity.
Qed.

(** A run of [bulk_insert_dataframe] in which the server takes every row. *)
Lemma bulk_insert_dataframe_ok (df : DataFrame) (table_name : string)
    (batch_size : Z) (w : World) (v : Database) :
  is_empty df = false ->
  (1 <= batch_size)%Z ->
  conn (db w) = Some v ->
  (forall row, row ∈ sql_rows df ->
               faults w (InsertInto table_name (columns df) row) = None) ->
  exists w',
    bulk_insert_dataframe df table_name batch_size w
      = (Returned (len df), w')
    /\ server (db w') = append_rows table_name (sql_rows df) v
    /\ conn (db w') = Some (server (db w'))
    /\ faults w' = faults w.
Proof.
  intros Hdf Hsize Hconn Hok.
  pose proof (nonempty_has_rows df Hdf) as Hrows.
  assert (HB : (0 < Z.to_nat batch_size)%nat) by lia.
  destruct (insert_batches_ok table_name (columns df) (sql_rows df)
              (Z.to_nat batch_size) (faults w) HB (length (sql_rows df))
              Hok 0%nat 0%nat w v eq_refl Hconn)
    as (w1 & Hrun & Hconn1 & Hserver & _); [lia|].
  pose proof (insert_batches_faults table_name (columns df) (sql_rows df)
                (Z.to_nat batch_size)
                (range_up (length (sql_rows df)) 0 (length (sql_rows df))
                   (Z.to_nat batch_size)) 0%nat w) as Hflt.
  rewrite Hrun in Hflt. cbn [snd] in Hflt.
  unfold bulk_insert_dataframe. rewrite Hdf. cbv zeta.
  rewrite (range_positive _ batch_size Hsize).
  unfold try_except, mbind, M_bind, lift. rewrite Hrun. run_M.
  eexists. split; [rewrite Nat.sub_0_r, sql_rows_length; reflexivity|].
  cbn [db set_log faults]. rewrite Hserver, Hconn1.
  destruct (Nat.ltb_spec 0 (length (sql_rows df))); [auto | lia].
Qed.

(** X9: when the server takes every row, [bulk_insert_dataframe] into a
    table other than the ledger table, on a data frame that is not empty
    and with a batch size of 1 or more, returns the number of rows of the
    frame and only appends: the table holds the rows that the connection
    saw in it, followed by the rows of the frame in their order; the other
    tables and the ledger are as the connection saw them; and everything is
    committed. *)
Theorem bulk_insert_appends_rows (df : DataFrame) (table_name : string)
    (batch_size : Z) (w : World) (v : Database) :
  table_name <> ledger_table ->
  is_empty df = false ->
  (1 <= batch_size)%Z ->
  conn (db w) = Some v ->
  (forall row, row ∈ sql_rows df ->
               faults w (InsertInto table_name (columns df) row) = None) ->
  exists w',
    bulk_insert_dataframe df table_name batch_size w
      = (Returned (len df), w')
    /\ rows_of table_name (server (db w'))
       = rows_of table_name v ++ sql_rows df
    /\ (forall other, table_name <> other ->
          rows_of other (server (db w')) = rows_of other v)
    /\ Ingestion_Manifest (server (db w')) = Ingestion_Manifest v
    /\ conn (db w') = Some (server (db w')).
Proof.
  intros _ Hdf Hsize Hconn Hok.
  destruct (bulk_insert_dataframe_ok df table_name batch_size w v
              Hdf Hsize Hconn Hok) as (w' & Hrun & Hserver & Hconn' & _).
  exists w'. split; [exact Hrun|]. rewrite Hconn', Hserver.
  repeat split.
  - apply rows_of_append_rows.
  - intros other Hne. now apply rows_of_append_rows_other.
  - apply append_rows_manifest.
Qed.

Lemma bulk_insert_appends_rows_witness :
  exists w',
    bulk_insert_dataframe products_df "Raw.erp_products" 1000 (sample_world ∅)
      = (Returned 2%nat, w')
    /\ rows_of "Raw.erp_products" (server (db w'))
       = [[Some "P1"; Some "9.5"]; [Some "P2"; None]].
Proof.
  destruct (bulk_insert_appends_rows products_df "Raw.erp_products" 1000
              (sample_world ∅) empty_database)
    as (w' & Hrun & Hrows & _).
  - discriminate.
  - reflexivity.
  - lia.
  - reflexivity.
  - intros row _. reflexivity.
  - exists w'. split; [exact Hrun | exact Hrows].
Defined.

(** X10: the batch size does not show in the outcome: when the server
    takes every row, two batch sizes of 1 or more give the same returned
    count and the same committed state. *)
Theorem bulk_insert_batch_size_irrelevant (df : DataFrame)
    (table_name : string) (size1 size2 : Z) (w : World) (v : Database) :
  is_empty df = false ->
  (1 <= size1)%Z ->
  (1 <= size2)%Z ->
  conn (db w) = Some v ->
  (forall row, row ∈ sql_rows df ->
               faults w (InsertInto table_name (columns df) row) = None) ->
  fst (bulk_insert_dataframe df table_name size1 w)
    = fst (bulk_insert_dataframe df table_name size2 w)
  /\ server (db (snd (bulk_insert_dataframe df table_name size1 w)))
     = server (db (snd (bulk_insert_dataframe df table_name size2 w))).
Proof.
  intros Hdf Hsize1 Hsize2 Hconn Hok.
  destruct (bulk_insert_dataframe_ok df table_name size1 w v
              Hdf Hsize1 Hconn Hok) as (w1 & Hrun1 & Hserver1 & _).
  destruct (bulk_insert_dataframe_ok df table_name size2 w v
              Hdf Hsize2 Hconn Hok) as (w2 & Hrun2 & Hserver2 & _).
  rewrite Hrun1, Hrun2. cbn [fst snd]. rewrite Hserver1, Hserver2. auto.
Qed.

Lemma bulk_insert_batch_size_irrelevant_witness :
  server (db (snd (bulk_insert_dataframe five_rows_df "Raw.erp_stores" 1
                     (sample_world ∅))))
  = server (db (snd (bulk_insert_dataframe five_rows_df "Raw.erp_stores" 1000
                       (sample_world ∅)))).
Proof.
  destruct (bulk_insert_batch_size_irrelevant five_rows_df "Raw.erp_stores"
              1 1000 (sample_world ∅) empty_database) as (_ & Hserver).
  - reflexivity.
  - lia.
  - lia.
  - reflexivity.
  - intros row _. reflexivity.
  - exact Hserver.
Defined.

(** X11: [truncate_table] followed by [bulk_insert_dataframe] on the same
    table, on an open connection whose server takes the statements: both
    succeed, and the table then holds the rows of the data frame and
    nothing else, while the other tables are as the connection saw them. *)
Theorem truncate_then_bulk_insert (df : DataFrame) (table_name : string)
    (batch_size : Z) (w : World) (v : Database) :
  is_empty df = false ->
  (1 <= batch_size)%Z ->
  conn (db w) = Some v ->
  faults w (TruncateTable table_name) = None ->
  (forall row, row ∈ sql_rows df ->
               faults w (InsertInto table_name (columns df) row) = None) ->
  exists w1 w2,
    truncate_table table_name w = (Returned true, w1)
    /\ bulk_insert_dataframe df table_name batch_size w1
       = (Returned (len df), w2)
    /\ rows_of table_name (server (db w2)) = sql_rows df
    /\ (forall other, table_name <> other ->
          rows_of other (server (db w2)) = rows_of other v).
Proof.
  intros Hdf Hsize Hconn Htrunc Hok.
  unfold truncate_table, try_except, mbind, M_bind.
  erewrite cursor_execute_ok; [|exact Hconn|].
  2:{ unfold run_statement. rewrite Htrunc. reflexivity. }
  unfold conn_commit. run_M.
  eexists. 
  match goal with
  | |- exists w2, (_, ?w1) = _ /\ _ =>
      destruct (bulk_insert_dataframe_ok df table_name batch_size w1
                  {| Ingestion_Manifest :=
                       if String.eqb table_name ledger_table then []
                       else Ingestion_Manifest v;
                     tables := <[table_name := []]> (tables v) |}
                  Hdf Hsize eq_refl Hok)
        as (w2 & Hrun & Hserver & _)
  end.
  exists w2. split; [reflexivity|]. split; [exact Hrun|].
  rewrite Hserver. split.
  - rewrite rows_of_append_rows. unfold rows_of. cbn [tables].
    rewrite lookup_insert_eq. reflexivity.
  - intros other Hne. rewrite rows_of_append_rows_other by exact Hne.
    unfold rows_of. cbn [tables]. now rewrite lookup_insert_ne.
Qed.

Lemma truncate_then_bulk_insert_witness :
  exists w1 w2,
    truncate_table "Raw.erp_products" (sample_world ∅) = (Returned true, w1)
    /\ bulk_insert_dataframe products_df "Raw.erp_products" 1 w1
       = (Returned 2%nat, w2)
    /\ rows_of "Raw.erp_products" (server (db w2)) = sql_rows products_df.
Proof.
  destruct (truncate_then_bulk_insert products_df "Raw.erp_products" 1
              (sample_world ∅) empty_database)
    as (w1 & w2 & Htrunc & Hrun & Hrows & _).
  - reflexivity.
  - lia.
  - reflexivity.
  - reflexivity.
  - intros row _. reflexivity.
  - exists w1, w2. split; [exact Htrunc|]. split; [exact Hrun | exact Hrows].
Defined.

(** ** Staging *)

Lemma index_of_lt (col : string) (cols : list string) (i : nat) :
  index_of col cols = Some i -> (i < length cols)%nat.
Proof.
  revert i. induction cols as [|c cols IH]; intros i; cbn [index_of length].
  - discriminate.
  - destruct (String.eqb c col); [intros [= <-]; lia|].
    destruct (index_of col cols) as [j|]; [|discriminate].
    intros [= <-]. specialize (IH j eq_refl). lia.
Qed.

Lemma index_of_snoc_fresh (col : string) (cols : list string) :
  index_of col cols = None -> index_of col (cols ++ [col]) = Some (length cols).
Proof.
  induction cols as [|c cols IH]; cbn [index_of app length].
  - now rewrite String.eqb_refl.
  - destruct (String.eqb c col); [discriminate|].
    destruct (index_of col cols); [discriminate|].
    intros _. now rewrite IH.
Qed.

Lemma index_of_snoc_found (col other : string) (cols : list string) (i : nat) :
  index_of col cols = Some i -> index_of col (cols ++ [other]) = Some i.
Proof.
  revert i. induction cols as [|c cols IH]; intros i; cbn [index_of app].
  - discriminate.
  - destruct (String.eqb c col); [auto|].
    destruct (index_of col cols) as [j|]; [|discriminate].
    intros [= <-]. now rewrite (IH j eq_refl).
Qed.

Lemma index_of_has (col : string) (cols : list string) :
  index_of col cols = None <-> existsb (String.eqb col) cols = false.
Proof.
  induction cols as [|c cols IH]; cbn [index_of existsb]; [tauto|].
  rewrite (String.eqb_sym col c).
  destruct (String.eqb c col); cbn [orb]; [split; discriminate|].
  rewrite <- IH. destruct (index_of col cols); cbn; split; congruence.
Qed.

Lemma index_of_distinct (col other : string) (cols : list string) (i j : nat) :
  col <> other ->
  index_of col cols = Some i -> index_of other cols = Some j -> i <> j.
Proof.
  intros Hne. revert i j.
  induction cols as [|c cols IH]; intros i j; cbn [index_of]; [discriminate|].
  destruct (String.eqb_spec c col) as [Hc|Hc];
    destruct (String.eqb_spec c other) as [Hc'|Hc']; try congruence.
  - destruct (index_of other cols); cbn; [|discriminate].
    intros [= <-] [= <-]. discriminate.
  - destruct (index_of col cols); cbn; [|discriminate].
    intros [= <-] [= <-]. discriminate.
  - destruct (index_of col cols) as [a|], (index_of other cols) as [b|];
      cbn; try discriminate.
    intros [= <-] [= <-] [= Hab]. now apply (IH a b).
Qed.

Lemma setitem_len (df : DataFrame) (col : string) (v : Cell) :
  len (setitem df col v) = len df.
Proof.
  unfold setitem, len. destruct (index_of col (columns df));
    cbn [values]; apply length_map.
Qed.

Lemma setitem_rectangular (df : DataFrame) (col : string) (v : Cell) :
  rectangular df -> rectangular (setitem df col v).
Proof.
  unfold rectangular, setitem. intros Hrect.
  destruct (index_of col (columns df)); cbn [columns values];
    apply Forall_fmap; eapply Forall_impl; [exact Hrect| |exact Hrect|];
    intros row Hrow; cbn.
  - now rewrite length_insert.
  - rewrite !length_app, Hrow. reflexivity.
Qed.

Lemma setitem_column_holds (df : DataFrame) (col : string) (v : Cell) :
  rectangular df -> column_holds (setitem df col v) col v.
Proof.
  unfold rectangular, column_holds, setitem. intros Hrect.
  rewrite Forall_forall in Hrect.
  destruct (index_of col (columns df)) as [i|] eqn:Hi; cbn [columns values].
  - exists i. split; [exact Hi|]. intros row' Hin.
    apply list_elem_of_fmap in Hin as (row & -> & Hin).
    apply list_lookup_insert_eq. rewrite (Hrect row Hin).
    now apply index_of_lt with col.
  - exists (length (columns df)). split; [now apply index_of_snoc_fresh|].
    intros row' Hin.
    apply list_elem_of_fmap in Hin as (row & -> & Hin).
    rewrite <- (Hrect row Hin). apply list_lookup_middle. reflexivity.
Qed.

Lemma setitem_keeps_column (df : DataFrame) (col other : string)
    (v v' : Cell) :
  col <> other ->
  column_holds df other v' -> column_holds (setitem df col v) other v'.
Proof.
  unfold column_holds, setitem. intros Hne (j & Hj & Hcells).
  exists j. destruct (index_of col (columns df)) as [i|] eqn:Hi;
    cbn [columns values].
  - split; [exact Hj|]. intros row' Hin.
    apply list_elem_of_fmap in Hin as (row & -> & Hin).
    rewrite list_lookup_insert_ne; [now apply Hcells|].
    exact (index_of_distinct _ _ _ _ _ Hne Hi Hj).
  - split; [now apply index_of_snoc_found|]. intros row' Hin.
    apply list_elem_of_fmap in Hin as (row & -> & Hin).
    rewrite lookup_app_l; [now apply Hcells|].
    apply lookup_lt_Some with v'. now apply Hcells.
Qed.

Lemma index_of_rename (old new col : string) (cols : list string) :
  col <> old -> col <> new ->
  index_of col (map (fun c => if String.eqb c old then new else c) cols)
  = index_of col cols.
Proof.
  intros Hold Hnew. induction cols as [|c cols IH]; [reflexivity|].
  cbn [index_of map]. rewrite IH.
  destruct (String.eqb_spec c old) as [Hc|Hc].
  - destruct (String.eqb_spec new col); [congruence|].
    destruct (String.eqb_spec c col); [congruence | reflexivity].
  - reflexivity.
Qed.

Lemma rename_column_holds (df : DataFrame) (old new col : string) (v : Cell) :
  col <> old -> col <> new ->
  column_holds df col v -> column_holds (rename df old new) col v.
Proof.
  unfold column_holds, rename. intros Hold Hnew (i & Hi & Hcells).
  exists i. cbn [columns values]. split; [|exact Hcells].
  now rewrite index_of_rename.
Qed.

(** X12: staging keeps the rows and their shape and stamps every row: for
    a frame in which every row has one cell per column, the staged frame
    has the same number of rows, is of that shape too, and its [Batch_ID]
    column holds the batch id and its [Source_File] column the file name in
    every row, whether the frame had these columns before or not. *)
Theorem stage_stamps_every_row (file_name batch_id : string) (df : DataFrame) :
  rectangular df ->
  len (stage file_name batch_id df) = len df
  /\ rectangular (stage file_name batch_id df)
  /\ column_holds (stage file_name batch_id df) "Batch_ID" (CStr batch_id)
  /\ column_holds (stage file_name batch_id df) "Source_File" (CStr file_name).
Proof.
  intros Hrect. unfold stage.
  set (df1 := setitem df "Batch_ID" (CStr batch_id)).
  set (df2 := setitem df1 "Source_File" (CStr file_name)).
  assert (Hrect1 : rectangular df1) by now apply setitem_rectangular.
  assert (Hrect2 : rectangular df2) by now apply setitem_rectangular.
  assert (Hlen : len df2 = len df).
  { unfold df2, df1. now rewrite !setitem_len. }
  assert (Hbatch : column_holds df2 "Batch_ID" (CStr batch_id)).
  { apply setitem_keeps_column; [discriminate|].
    now apply setitem_column_holds. }
  assert (Hfile : column_holds df2 "Source_File" (CStr file_name))
    by now apply setitem_column_holds.
  destruct (_ && _).
  - repeat split.
    + exact Hlen.
    + unfold rectangular, rename in *. cbn [columns values].
      now rewrite length_map.
    + apply rename_column_holds; [discriminate | discriminate | exact Hbatch].
    + apply rename_column_holds; [discriminate | discriminate | exact Hfile].
  - auto.
Qed.

Lemma stage_stamps_every_row_witness :
  column_holds (stage "api_weather.csv" "api_weather_20240309_070500" weather_df)
    "Batch_ID" (CStr "api_weather_20240309_070500").
Proof.
  destruct (stage_stamps_every_row "api_weather.csv"
              "api_weather_20240309_070500" weather_df)
    as (_ & _ & Hbatch & _).
  - unfold rectangular. repeat constructor.
  - exact Hbatch.
Defined.

(** X13: the header after staging: the columns of the frame, then
    [Batch_ID] if the frame had no such column, then [Source_File] if it
    had none; an existing metadata column is overwritten in place, not
    added a second time.  For [api_weather.csv], and for no other file,
    every [Store_ID] in that header reads [Retail_Location_ID]. *)
Theorem stage_header (file_name batch_id : string) (df : DataFrame) :
  let header :=
    columns df
    ++ (if has_column df "Batch_ID" then [] else ["Batch_ID"])
    ++ (if has_column df "Source_File" then [] else ["Source_File"]) in
  columns (stage file_name batch_id df)
  = if String.eqb file_name "api_weather.csv"
    then map (fun c => if String.eqb c "Store_ID"
                       then "Retail_Location_ID" else c) header
    else header.
Proof.
  cbv zeta. unfold stage, has_column.
  set (df1 := setitem df "Batch_ID" (CStr batch_id)).
  assert (H1 : columns df1
               = columns df
                 ++ (if existsb (String.eqb "Batch_ID") (columns df)
                     then [] else ["Batch_ID"])).
  { unfold df1, setitem.
    destruct (index_of "Batch_ID" (columns df)) as [i|] eqn:Hi; cbn [columns].
    - destruct (existsb (String.eqb "Batch_ID") (columns df)) eqn:Hex;
        [symmetry; apply app_nil_r|].
      apply index_of_has in Hex. congruence.
    - apply index_of_has in Hi. now rewrite Hi. }
  assert (Hsf : existsb (String.eqb "Source_File") (columns df1)
                = existsb (String.eqb "Source_File") (columns df)).
  { rewrite H1, existsb_app.
    destruct (existsb (String.eqb "Batch_ID") (columns df)); cbn;
      now rewrite orb_false_r. }
  set (df2 := setitem df1 "Source_File" (CStr file_name)).
  assert (H2 : columns df2
               = columns df1
                 ++ (if existsb (String.eqb "Source_File") (columns df)
                     then [] else ["Source_File"])).
  { unfold df2, setitem. rewrite <- Hsf.
    destruct (index_of "Source_File" (columns df1)) as [i|] eqn:Hi;
      cbn [columns].
    - destruct (existsb (String.eqb "Source_File") (columns df1)) eqn:Hex;
        [symmetry; apply app_nil_r|].
      apply index_of_has in Hex. congruence.
    - apply index_of_has in Hi. now rewrite Hi. }
  rewrite H1 in H2. rewrite <- app_assoc in H2. rewrite <- H2.
  destruct (String.eqb file_name "api_weather.csv"); cbn [andb]; [|reflexivity].
  destruct (existsb (String.eqb "Store_ID") (columns df2)) eqn:Hstore;
    [reflexivity|].
  symmetry. clear -Hstore.
  induction (columns df2) as [|c cols IH]; [reflexivity|].
  cbn [existsb map] in *. apply orb_false_elim in Hstore as [Hc Hrest].
  rewrite String.eqb_sym in Hc. rewrite Hc. f_equal. now apply IH.
Qed.

(** ** One file, all files, the command line *)

Lemma ingest_outcome_true (w : World) (file_name : string) :
  ingest_outcome (sample_dir w) file_name = true
  <-> readable w file_name /\ is_Some (dict_get FILE_TABLE_MAP file_name).
Proof.
  unfold ingest_outcome, readable.
  destruct (sample_dir w !! file_name) as [[e|df]|];
    destruct (dict_get FILE_TABLE_MAP file_name) as [m|]; split;
    try discriminate; try (intros [[df' Hdf] [m' Hm]]; discriminate);
    intros _; split; eauto.
Qed.

(** X14: [ingest_csv_file] never raises, and it answers [True] exactly
    when the file is in the sample directory, parses and is registered.
    It reads the clock once, for the batch id, when the file is there and
    registered, also when the file then fails to parse, and not at all
    otherwise. *)
Theorem ingest_csv_file_answer (file_name : string) (truncate : bool)
    (w : World) :
  exists success w',
    ingest_csv_file file_name truncate w = (Returned success, w')
    /\ (success = true
        <-> readable w file_name
            /\ is_Some (dict_get FILE_TABLE_MAP file_name))
    /\ ticks w'
       = match sample_dir w !! file_name, dict_get FILE_TABLE_MAP file_name with
         | Some _, Some _ => S (ticks w)
         | _, _ => ticks w
         end.
Proof.
  exists (ingest_outcome (sample_dir w) file_name).
  pose proof (ingest_outcome_true w file_name) as Hiff.
  unfold ingest_csv_file, ingest_outcome in *. run_M.
  destruct (sample_dir w !! file_name) as [[e|df]|] eqn:Hfile;
    destruct (dict_get FILE_TABLE_MAP file_name) as [mapping|] eqn:Hmap;
    cbn [negb]; run_M; rewrite ?Hfile;
    (eexists; split; [reflexivity|]); (split; [exact Hiff|]);
    reflexivity.
Qed.

Lemma keys_dict_get {V} (d : list (string * V)) (k : string) :
  k ∈ keys d -> is_Some (dict_get d k).
Proof.
  unfold keys. induction d as [|[k' v] d IH]; cbn [map fst dict_get].
  - intros Hin. inversion Hin.
  - intros Hin. destruct (String.eqb_spec k' k) as [_|Hne]; [eauto|].
    apply IH. apply elem_of_cons in Hin as [->|Hin]; [contradiction | exact Hin].
Qed.

(** The dict that [ingest_all_csv_files] returns, and what it leaves
    alone. *)
Lemma ingest_all_csv_files_results (truncate : bool) (w : World) :
  exists w',
    ingest_all_csv_files truncate w
      = (Returned (map (fun f => (f, ingest_outcome (sample_dir w) f))
                       (keys FILE_TABLE_MAP)), w')
    /\ db w' = db w
    /\ sample_dir w' = sample_dir w.
Proof.
  unfold ingest_all_csv_files. run_M.
  match goal with
  | |- context [ingest_each _ _ _ ?w0] =>
      destruct (ingest_each_run truncate (keys FILE_TABLE_MAP)
                  FILE_TABLE_MAP_keys_NoDup [] w0)
        as (w1 & Hrun & Hdir & Hdb & _); [reflexivity|]
  end.
  rewrite Hrun. cbn [app sample_dir db] in *.
  match goal with
  | |- context [log_summary ?items ?w2] =>
      destruct (log_summary_run items w2) as (more & Hsum)
  end.
  rewrite Hsum. cbn [log set_log].
  eexists. split; [reflexivity|]. cbn [db sample_dir]. auto.
Qed.

Lemma all_outcomes_true (w : World) :
  forallb (fun v : bool => v)
    (map snd (map (fun f => (f, ingest_outcome (sample_dir w) f))
                  (keys FILE_TABLE_MAP))) = true
  <-> forall file_name,
        file_name ∈ keys FILE_TABLE_MAP -> readable w file_name.
Proof.
  rewrite map_map. cbn [snd]. rewrite forallb_forall.
  split.
  - intros Hall f Hin. apply list_elem_of_In in Hin.
    apply (ingest_outcome_true w f), Hall, in_map_iff. now exists f.
  - intros Hall b Hb. apply in_map_iff in Hb as (f & <- & Hin).
    apply list_elem_of_In in Hin.
    apply (ingest_outcome_true w f). split; [now apply Hall|].
    now apply keys_dict_get.
Qed.

(** X15: [ingest_all_csv_files] makes no call on the database and does
    not touch the sample directory; the dict it returns has [True] under
    every file name exactly when every registered file is there and
    parses. *)
Theorem ingest_all_csv_files_all_true (truncate : bool) (w : World) :
  exists results w',
    ingest_all_csv_files truncate w = (Returned results, w')
    /\ db w' = db w
    /\ sample_dir w' = sample_dir w
    /\ (forallb (fun v : bool => v) (map snd results) = true
        <-> forall file_name,
              file_name ∈ keys FILE_TABLE_MAP -> readable w file_name).
Proof.
  destruct (ingest_all_csv_files_results truncate w)
    as (w' & Hrun & Hdb & Hdir).
  eexists. exists w'. split; [exact Hrun|]. split; [exact Hdb|].
  split; [exact Hdir | apply all_outcomes_true].
Qed.

(** X16: with [--file] and a file name that is not empty, the script
    ingests that one file and nothing else, also when [--all] is given: the
    exit code is 0 when [ingest_csv_file] answers [True] and 1 when it
    answers [False], and the final state is the one [ingest_csv_file]
    leaves. *)
Theorem main_single_file (args : Args) (file_name : string) (w : World) :
  arg_file args = Some file_name ->
  file_name <> "" ->
  exists success w',
    ingest_csv_file file_name (arg_truncate args) w = (Returned success, w')
    /\ main args w = (Returned (if success then 0 else 1)%Z, w')
    /\ (success = true
        <-> readable w file_name
            /\ is_Some (dict_get FILE_TABLE_MAP file_name)).
Proof.
  intros Hfile Hne.
  destruct (ingest_csv_file_run file_name (arg_truncate args) w)
    as (w' & Hrun & _).
  exists (ingest_outcome (sample_dir w) file_name), w'.
  split; [exact Hrun|]. split; [|apply ingest_outcome_true].
  unfold main. rewrite Hfile.
  destruct file_name as [|c rest]; [contradiction|].
  unfold mbind, M_bind. rewrite Hrun. reflexivity.
Qed.

Lemma main_single_file_witness :
  fst (main {| arg_file := Some "erp_products.csv"; arg_all := true;
               arg_truncate := false |}
            (sample_world {[ "erp_products.csv" := Parsed products_df ]}))
  = Returned 0%Z.
Proof.
  destruct (main_single_file
              {| arg_file := Some "erp_products.csv"; arg_all := true;
                 arg_truncate := false |}
              "erp_products.csv"
              (sample_world {[ "erp_products.csv" := Parsed products_df ]})
              eq_refl)
    as (success & w' & Hone & Hmain & Hiff); [discriminate|].
  rewrite Hmain. cbn [fst].
  replace success with true; [reflexivity|].
  symmetry. apply Hiff. split.
  - exists products_df. reflexivity.
  - eexists. reflexivity.
Defined.

(** X17: with [--all] and no file name (none, or the empty string), the
    exit code is 0 exactly when every registered file is in the sample
    directory and parses, and 1 otherwise; no call is made on the
    database. *)
Theorem main_all (args : Args) (w : World) :
  arg_file args = None \/ arg_file args = Some "" ->
  arg_all args = true ->
  exists code w',
    main args w = (Returned code, w')
    /\ (code = 0%Z \/ code = 1%Z)
    /\ (code = 0%Z
        <-> forall file_name,
              file_name ∈ keys FILE_TABLE_MAP -> readable w file_name)
    /\ db w' = db w.
Proof.
  intros Hfile Hall.
  destruct (ingest_all_csv_files_results (arg_truncate args) w)
    as (w' & Hrun & Hdb & _).
  pose proof (all_outcomes_true w) as Hiff.
  eexists. exists w'.
  split; [|split; [|split]].
  - unfold main. destruct Hfile as [-> | ->]; rewrite Hall;
      unfold mbind, M_bind; rewrite Hrun; reflexivity.
  - cbv zeta. destruct (forallb _ _); auto.
  - cbv zeta. rewrite <- Hiff. destruct (forallb _ _); split; congruence.
  - exact Hdb.
Qed.

Lemma main_all_witness :
  fst (main {| arg_file := Some ""; arg_all := true; arg_truncate := true |}
            (sample_world {[ "erp_products.csv" := Parsed products_df ]}))
  = Returned 1%Z.
Proof.
  destruct (main_all
              {| arg_file := Some ""; arg_all := true; arg_truncate := true |}
              (sample_world {[ "erp_products.csv" := Parsed products_df ]}))
    as (code & w' & Hmain & [H0|H1] & Hiff & _).
  - right. reflexivity.
  - reflexivity.
  - exfalso. destruct (proj1 Hiff H0 "erp_stores.csv") as [df Hdf].
    + apply list_elem_of_In. do 3 right. left. reflexivity.
    + vm_compute in Hdf. discriminate.
  - rewrite Hmain, H1. reflexivity.
Defined.

(** X18: with neither a file name (none, or the empty string) nor
    [--all], the script exits with code 1 and has ingested nothing: the
    state is untouched, whatever [--truncate] says. *)
Theorem main_no_request (args : Args) (w : World) :
  arg_file args = None \/ arg_file args = Some "" ->
  arg_all args = false ->
  main args w = (Returned 1%Z, w).
Proof.
  intros Hfile Hall. unfold main.
  destruct Hfile as [-> | ->]; rewrite Hall; reflexivity.
Qed.

Lemma main_no_request_witness :
  main {| arg_file := Some ""; arg_all := false; arg_truncate := true |}
       (sample_world ∅)
  = (Returned 1%Z, sample_world ∅).
Proof.
  apply main_no_request; [right|]; reflexivity.
Defined.

(** ** Batch ids and seconds *)

Lemma string_length_app (a b : string) :
  String.length (a +:+ b) = (String.length a + String.length b)%nat.
Proof.
  induction a as [|x a IH]; [reflexivity|].
  change (S (String.length (a +:+ b)) = S (String.length a + String.length b)).
  now rewrite IH.
Qed.

Lemma string_app_inv_head (a b c : string) : a +:+ b = a +:+ c -> b = c.
Proof.
  induction a as [|x a IH]; [auto|].
  change (String x (a +:+ b) = String x (a +:+ c) -> b = c).
  intros [= H]. auto.
Qed.

Lemma string_app_inj_length (a1 a2 b1 b2 : string) :
  String.length a1 = String.length a2 ->
  a1 +:+ b1 = a2 +:+ b2 -> a1 = a2 /\ b1 = b2.
Proof.
  revert a2. induction a1 as [|x a1 IH]; intros [|y a2] Hlen;
    try discriminate.
  - auto.
  - change (String x (a1 +:+ b1) = String y (a2 +:+ b2) ->
            String x a1 = String y a2 /\ b1 = b2).
    intros [= -> H]. cbn in Hlen.
    destruct (IH a2 ltac:(lia) H) as [-> ->]. auto.
Qed.

Lemma digit_inj (a b : nat) :
  (a < 10)%nat -> (b < 10)%nat -> digit a = digit b -> a = b.
Proof.
  intros Ha Hb H. unfold digit in H.
  apply (f_equal nat_of_ascii) in H.
  rewrite !nat_ascii_embedding in H by lia. lia.
Qed.

Lemma fixed_width_length (k n : nat) : String.length (fixed_width k n) = k.
Proof.
  revert n. induction k as [|k IH]; intros n; [reflexivity|].
  cbn [fixed_width]. rewrite string_length_app, IH. cbn. lia.
Qed.

Lemma fixed_width_mod (k n m : nat) :
  fixed_width k n = fixed_width k m -> n mod 10 ^ k = m mod 10 ^ k.
Proof.
  revert n m. induction k as [|k IH]; intros n m H.
  - cbn. reflexivity.
  - cbn [fixed_width] in H.
    apply string_app_inj_length in H as [Hhigh Hlow];
      [|now rewrite !fixed_width_length].
    assert (Hunit : n mod 10 = m mod 10).
    { apply digit_inj; try (apply Nat.mod_upper_bound; lia). congruence. }
    apply IH in Hhigh.
    rewrite Nat.pow_succ_r', !Nat.Div0.mod_mul_r, Hhigh, Hunit. reflexivity.
Qed.

Lemma fixed_width_inj (k n m : nat) :
  (n < 10 ^ k)%nat -> (m < 10 ^ k)%nat ->
  fixed_width k n = fixed_width k m -> n = m.
Proof.
  intros Hn Hm H. apply fixed_width_mod in H.
  now rewrite !Nat.mod_small in H.
Qed.

Lemma timestamp_inj (t1 t2 : datetime) :
  valid_datetime t1 -> valid_datetime t2 ->
  YYYYMMDD t1 +:+ "_" +:+ HHMMSS t1 = YYYYMMDD t2 +:+ "_" +:+ HHMMSS t2 ->
  same_second t1 t2.
Proof.
  intros (Hy1 & Hm1 & Hd1 & Hh1 & Hmi1 & Hs1 & _)
         (Hy2 & Hm2 & Hd2 & Hh2 & Hmi2 & Hs2 & _) H.
  assert (H4 : (10 ^ 4 = 100 * 100)%nat) by reflexivity.
  assert (H2 : (10 ^ 2 = 100)%nat) by reflexivity.
  unfold YYYYMMDD, HHMMSS in H.
  apply string_app_inj_length in H as [Hdate Htime];
    [|now rewrite !string_length_app, !fixed_width_length].
  apply (string_app_inv_head "_") in Htime.
  apply string_app_inj_length in Hdate as [Hy Hmd];
    [|now rewrite !fixed_width_length].
  apply string_app_inj_length in Hmd as [Hm Hd];
    [|now rewrite !fixed_width_length].
  apply string_app_inj_length in Htime as [Hh Hms];
    [|now rewrite !fixed_width_length].
  apply string_app_inj_length in Hms as [Hmi Hs];
    [|now rewrite !fixed_width_length].
  apply fixed_width_inj in Hy; [|rewrite H4; lia..].
  apply fixed_width_inj in Hm; [|rewrite H2; lia..].
  apply fixed_width_inj in Hd; [|rewrite H2; lia..].
  apply fixed_width_inj in Hh; [|rewrite H2; lia..].
  apply fixed_width_inj in Hmi; [|rewrite H2; lia..].
  apply fixed_width_inj in Hs; [|rewrite H2; lia..].
  unfold same_second. repeat split; assumption.
Qed.

(** X19: for one source and one entity, two mints give the same batch id
    exactly when the two readings of the clock fall in the same second:
    ids minted in different seconds never collide, ids minted within one
    second always do. *)
Theorem batch_ids_collide_iff_same_second (source entity : string)
    (w1 w2 : World) :
  valid_datetime (clock w1 (ticks w1)) ->
  valid_datetime (clock w2 (ticks w2)) ->
  fst (generate_batch_id source entity w1)
    = fst (generate_batch_id source entity w2)
  <-> same_second (clock w1 (ticks w1)) (clock w2 (ticks w2)).
Proof.
  intros Hvalid1 Hvalid2.
  unfold generate_batch_id, mbind, M_bind, now, mret, M_ret. cbn [fst].
  split.
  - rewrite (strftime_timestamp _ Hvalid1), (strftime_timestamp _ Hvalid2).
    set (ts1 := YYYYMMDD (clock w1 (ticks w1)) +:+ "_"
                +:+ HHMMSS (clock w1 (ticks w1))).
    set (ts2 := YYYYMMDD (clock w2 (ticks w2)) +:+ "_"
                +:+ HHMMSS (clock w2 (ticks w2))).
    intros H.
    assert (Hid : source +:+ "_" +:+ entity +:+ "_" +:+ ts1
                  = source +:+ "_" +:+ entity +:+ "_" +:+ ts2)
      by congruence.
    apply (string_app_inv_head source), (string_app_inv_head "_"),
      (string_app_inv_head entity), (string_app_inv_head "_") in Hid.
    now apply timestamp_inj.
  - intros Hsame. now rewrite (strftime_same_second _ _ _ Hsame).
Qed.

Lemma batch_ids_collide_iff_same_second_witness :
  fst (generate_batch_id "erp" "products" (sample_world ∅))
  = fst (generate_batch_id "erp" "products" rejecting_world).
Proof.
  assert (Hvalid : valid_datetime sample_time).
  { unfold valid_datetime, sample_time.
    cbn [year month day hour minute second microsecond]. lia. }
  apply (batch_ids_collide_iff_same_second "erp" "products" (sample_world ∅)
           rejecting_world Hvalid Hvalid).
  unfold same_second. repeat split; reflexivity.
Defined.

(** X20: the batch id does not tell where the source ends and the entity
    begins: a source [a_b] with entity [c] and a source [a] with entity
    [b_c] get the same id at the same reading of the clock. *)
Theorem batch_id_underscore_alias (a b c : string) (w : World) :
  generate_batch_id (a +:+ "_" +:+ b) c w
  = generate_batch_id a (b +:+ "_" +:+ c) w.
Proof.
  unfold generate_batch_id, mbind, M_bind, now, mret, M_ret.
  now rewrite !string_app_assoc.
Qed.

(** ** Truncation *)

(** X21: on an open connection whose server takes the statement,
    [truncate_table] answers [True] and commits: the table is empty and
    every other table is as the connection saw it.  The ledger is as the
    connection saw it too, unless the table is the ledger table itself,
    [Raw.Ingestion_Manifest]: then the ledger is empty. *)
Theorem truncate_table_empties_one_table (table_name : string) (w : World)
    (v : Database) :
  conn (db w) = Some v ->
  faults w (TruncateTable table_name) = None ->
  exists w',
    truncate_table table_name w = (Returned true, w')
    /\ rows_of table_name (server (db w')) = []
    /\ (forall other, table_name <> other ->
          rows_of other (server (db w')) = rows_of other v)
    /\ (table_name <> ledger_table ->
        Ingestion_Manifest (server (db w')) = Ingestion_Manifest v)
    /\ (table_name = ledger_table ->
        Ingestion_Manifest (server (db w')) = [])
    /\ conn (db w') = Some (server (db w')).
Proof.
  intros Hconn Hfault.
  unfold truncate_table, try_except, mbind, M_bind.
  erewrite cursor_execute_ok; [|exact Hconn|].
  2:{ unfold run_statement. rewrite Hfault. reflexivity. }
  unfold conn_commit. run_M.
  eexists. split; [reflexivity|].
  cbn [db set_log set_db server conn Ingestion_Manifest].
  unfold rows_of. cbn [tables]. rewrite lookup_insert_eq.
  split; [reflexivity|]. split; [|split; [|split]].
  - intros other Hne. now rewrite lookup_insert_ne.
  - intros Hne. destruct (String.eqb_spec table_name ledger_table);
      [contradiction | reflexivity].
  - intros ->. reflexivity.
  - reflexivity.
Qed.

Lemma truncate_table_empties_one_table_witness :
  exists w',
    truncate_table "Raw.Ingestion_Manifest" started_world = (Returned true, w')
    /\ Ingestion_Manifest (server (db started_world)) <> []
    /\ Ingestion_Manifest (server (db w')) = [].
Proof.
  destruct (truncate_table_empties_one_table "Raw.Ingestion_Manifest"
              started_world
              {| Ingestion_Manifest :=
                   [started "erp_products_20240309_070500" "ERP" "products"
                            "erp_products.csv" sample_time];
                 tables := ∅ |} eq_refl eq_refl)
    as (w' & Hrun & _ & _ & _ & Hledger & _).
  exists w'. split; [exact Hrun|]. split; [discriminate|].
  apply Hledger. reflexivity.
Defined.
